(** * Day 17/crawler.py: the crawl orchestrator and its three result writers

    A shallow embedding of [main] of [Day 17/crawler.py].  The script
    configures a deep crawl, awaits the list of page results, and writes it
    out three times: as markdown, as plain text and as JSON.

    - A Python [str] is a sequence of Unicode code points: [pystr := list N].
      [len] counts code points and [s[:500]] is [take 500 s].
    - A Python [int] is a [Z].
    - [result.metadata] is used as a [dict] on every path of the script
      (lines 50, 74, 100, 103, 104, 122): a [gmap] from keys to values.
    - The effects of [main] (the awaited crawl, [datetime.now()],
      [os.makedirs], the file writes, [print]) are threaded through a small
      state monad over a [world]; the clock readings and the answer of the
      crawling library are the environment of the run. *)

From Stdlib Require Import ZArith NArith List Ascii String.
From stdpp Require Import base gmap list pretty.

Local Open Scope Z_scope.
Set Warnings "-register-all,-clear-no-such-hyp,-abstract-large-number".

(** ** Python strings *)

Abbreviation pystr := (list N).

(** The code points of an ASCII literal of the script. *)
Fixpoint py (s : string) : pystr :=
  match s with
  | EmptyString => []
  | String a s' => N_of_ascii a :: py s'
  end.

(** The newline, the double quote and the backslash. *)
Definition nl : pystr := [10%N].
Definition dquote : N := 34%N.
Definition backslash : N := 92%N.

(** [len(s)] *)
Definition len {A} (l : list A) : Z := Z.of_nat (length l).

(** [s * n], as in the separator lines of the text file. *)
Definition str_mul (s : pystr) (n : nat) : pystr := concat (replicate n s).

(** [str(i)] for an [int]. *)
Definition str_int (i : Z) : pystr := py (pretty i).

(** ** Python values held in [metadata], and [status_code]

    The values the script reads out of [metadata] and [status_code] are
    formatted by an f-string and handed to [json.dump]; they are taken in
    the scalar fragment [None], [bool], [int], [str]. *)

Inductive pyval : Type :=
  | PNone
  | PBool (b : bool)
  | PInt (i : Z)
  | PStr (s : pystr).

(** A value interpolated in an f-string: it is formatted with the empty
    format specification, which is [str(v)] on these types. *)
Definition py_format (v : pyval) : pystr :=
  match v with
  | PNone => py "None"
  | PBool true => py "True"
  | PBool false => py "False"
  | PInt i => str_int i
  | PStr s => s
  end.

(** ** The crawling library's types, as the script uses them *)

Record BFSDeepCrawlStrategy : Type := {
  max_depth : Z;
  max_pages : Z;
  include_external : bool
}.

Inductive ScrapingStrategy : Type := LXMLWebScrapingStrategy.

Record CrawlerRunConfig : Type := {
  deep_crawl_strategy : BFSDeepCrawlStrategy;
  scraping_strategy : ScrapingStrategy;
  verbose : bool
}.

(** One crawled page.  [cleaned_html] is [None] or a [str].  [links] and
    [media] are read behind [hasattr(result, ...) and result....]: the outer
    [option] says whether the attribute exists, the inner one whether it is
    [None] or a dict from a category to a list of entries. *)
Record CrawlResult : Type := {
  url : pystr;
  metadata : gmap pystr pyval;
  status_code : pyval;
  cleaned_html : option pystr;
  links : option (option (gmap pystr (list (gmap pystr pyval))));
  media : option (option (gmap pystr (list (gmap pystr pyval))))
}.

(** [d.get(k, default)] *)
Definition dict_get {V} (d : gmap pystr V) (k : pystr) (default : V) : V :=
  match d !! k with
  | Some v => v
  | None => default
  end.

(** Truthiness of [result.cleaned_html]: [None] and the empty string are
    falsy. *)
Definition truthy_str (o : option pystr) : bool :=
  match o with
  | Some (_ :: _) => true
  | _ => false
  end.

(** Truthiness of [hasattr(result, a) and result.a] for a dict-valued
    attribute: a missing attribute, [None] and the empty dict are falsy. *)
Definition truthy_attr {V} (o : option (option (gmap pystr V))) : bool :=
  match o with
  | Some (Some d) => bool_decide (d ≠ ∅)
  | _ => false
  end.

(** [enumerate(l, start)] *)
Fixpoint enumerate {A} (l : list A) (start : Z) : list (Z * A) :=
  match l with
  | [] => []
  | x :: l' => (start, x) :: enumerate l' (start + 1)
  end.

(** ** The derived values of one page *)

(** Lines 52, 76, 102:
    [len(result.cleaned_html) if result.cleaned_html else 0]. *)
Definition content_length (result : CrawlResult) : Z :=
  match cleaned_html result with
  | Some s => if truthy_str (Some s) then len s else 0
  | None => 0
  end.

(** Lines 56 and 80, under the guard [if result.cleaned_html:], with [html]
    for [result.cleaned_html]:
    [html[:500] + '...' if len(html) > 500 else html]. *)
Definition content_preview (html : pystr) : pystr :=
  if 500 <? len html then take 500 html ++ py "..." else html.

(** Line 105, where the conditional expression binds weaker than [or]:
    [(html[:500] + '...') if (html and len(html) > 500) else (html or '')],
    the last operand being the empty string. *)
Definition content_preview_json (html : option pystr) : pystr :=
  match html with
  | Some s =>
      if truthy_str (Some s) && (500 <? len s)
      then take 500 s ++ py "..."
      else if truthy_str (Some s) then s else []
  | None => []
  end.

(** Line 106. *)
Definition links_found (result : CrawlResult) : Z :=
  match links result with
  | Some (Some d) =>
      if truthy_attr (links result) then len (dict_get d (py "internal") [])
      else 0
  | _ => 0
  end.

(** Line 107. *)
Definition images_found (result : CrawlResult) : Z :=
  match media result with
  | Some (Some d) =>
      if truthy_attr (media result) then len (dict_get d (py "images") [])
      else 0
  | _ => 0
  end.

(** ** JSON values and [json.dump(obj, f, indent=2, ensure_ascii=False)]

    A dict keeps its insertion order and [json.dump] walks it in that order
    ([sort_keys] is off), so an object is an association list. *)

Inductive json : Type :=
  | JNull
  | JBool (b : bool)
  | JInt (i : Z)
  | JStr (s : pystr)
  | JList (l : list json)
  | JDict (items : list (pystr * json)).

Definition json_of_pyval (v : pyval) : json :=
  match v with
  | PNone => JNull
  | PBool b => JBool b
  | PInt i => JInt i
  | PStr s => JStr s
  end.

(** [d[k]] on a JSON object: the first item with that key. *)
Fixpoint assoc_get (items : list (pystr * json)) (k : pystr) : option json :=
  match items with
  | [] => None
  | (k', v) :: items' => if decide (k' = k) then Some v else assoc_get items' k
  end.

Definition json_get (j : json) (k : pystr) : option json :=
  match j with
  | JDict items => assoc_get items k
  | _ => None
  end.

(** [d[k].append(x)]: the list stored under [k] grows in place. *)
Definition json_list_append (j : json) (k : pystr) (x : json) : json :=
  match j with
  | JDict items =>
      JDict (map (λ kv : pystr * json,
                    if decide (kv.1 = k) then
                      match kv.2 with
                      | JList l => (kv.1, JList (l ++ [x]))
                      | _ => kv
                      end
                    else kv) items)
  | _ => j
  end.

(** One lowercase hexadecimal digit. *)
Definition hex_digit (n : N) : N :=
  if (n <? 10)%N then (48 + n)%N else (87 + n)%N.

(** The replacement of one character by the encoder's string escaping when
    [ensure_ascii] is off: only the backslash, the double quote and the
    control characters below U+0020 are rewritten; the latter as their short
    escape where there is one, else as a four-digit hexadecimal escape. *)
Definition escape_char (c : N) : pystr :=
  if (c =? backslash)%N then [backslash; backslash]
  else if (c =? dquote)%N then [backslash; dquote]
  else if (c =? 8)%N then backslash :: py "b"
  else if (c =? 12)%N then backslash :: py "f"
  else if (c =? 10)%N then backslash :: py "n"
  else if (c =? 13)%N then backslash :: py "r"
  else if (c =? 9)%N then backslash :: py "t"
  else if (c <? 32)%N then
    backslash :: py "u00" ++ [hex_digit (c / 16)%N; hex_digit (c mod 16)%N]
  else [c].

Definition py_encode_basestring (s : pystr) : pystr :=
  dquote :: flat_map escape_char s ++ [dquote].

(** A newline followed by the indentation of nesting level [lvl]. *)
Definition newline_indent (indent lvl : nat) : pystr :=
  nl ++ str_mul (py " ") (indent * lvl).

(** [sep.join(chunks)] *)
Fixpoint join (sep : pystr) (chunks : list pystr) : pystr :=
  match chunks with
  | [] => []
  | [c] => c
  | c :: chunks' => c ++ sep ++ join sep chunks'
  end.

(** The encoder with an indentation width: an empty container is written
    closed on the spot, the items of any other one go on a line each, one
    level deeper, separated by a comma, and a key is followed by a colon and
    a space. *)
Fixpoint iterencode (indent lvl : nat) (o : json) : pystr :=
  match o with
  | JNull => py "null"
  | JBool true => py "true"
  | JBool false => py "false"
  | JInt i => str_int i
  | JStr s => py_encode_basestring s
  | JList [] => py "[]"
  | JList l =>
      py "[" ++ newline_indent indent (S lvl)
      ++ join (py "," ++ newline_indent indent (S lvl))
              (map (iterencode indent (S lvl)) l)
      ++ newline_indent indent lvl ++ py "]"
  | JDict [] => py "{}"
  | JDict items =>
      py "{" ++ newline_indent indent (S lvl)
      ++ join (py "," ++ newline_indent indent (S lvl))
              (map (λ kv : pystr * json,
                      py_encode_basestring kv.1 ++ py ": "
                      ++ iterencode indent (S lvl) kv.2) items)
      ++ newline_indent indent lvl ++ py "}"
  end.

(** [json.dumps(obj, indent=2, ensure_ascii=False)] *)
Definition json_dumps (obj : json) : pystr := iterencode 2 0 obj.

(** The bytes of one code point in a file opened with [encoding='utf-8'];
    a lone surrogate or a value past U+10FFFF has none. *)
Definition utf8_char (c : N) : option (list N) :=
  if (c <? 128)%N then Some [c]
  else if (c <? 2048)%N then
    Some [N.lor 192 (N.shiftr c 6); N.lor 128 (N.land c 63)]
  else if (c <? 65536)%N then
    if (55296 <=? c)%N && (c <=? 57343)%N then None
    else Some [N.lor 224 (N.shiftr c 12);
               N.lor 128 (N.land (N.shiftr c 6) 63);
               N.lor 128 (N.land c 63)]
  else if (c <? 1114112)%N then
    Some [N.lor 240 (N.shiftr c 18);
          N.lor 128 (N.land (N.shiftr c 12) 63);
          N.lor 128 (N.land (N.shiftr c 6) 63);
          N.lor 128 (N.land c 63)]
  else None.

Fixpoint utf8_encode (s : pystr) : option (list N) :=
  match s with
  | [] => Some []
  | c :: s' =>
      match utf8_char c, utf8_encode s' with
      | Some b, Some bs => Some (b ++ bs)
      | _, _ => None
      end
  end.

(** ** [datetime] and [strftime] *)

Record datetime : Type := {
  year : N; month : N; day : N; hour : N; minute : N; second : N
}.

(** A decimal number padded with zeros on the left to [width] digits. *)
Definition zero_pad (width : nat) (n : N) : pystr :=
  let digits := py (pretty n) in
  replicate (width - length digits) 48%N ++ digits.

(** The directives the script uses; any other one is left as it is. *)
Definition directive (d : N) (t : datetime) : pystr :=
  if (d =? 89)%N then zero_pad 4 (year t)
  else if (d =? 109)%N then zero_pad 2 (month t)
  else if (d =? 100)%N then zero_pad 2 (day t)
  else if (d =? 72)%N then zero_pad 2 (hour t)
  else if (d =? 77)%N then zero_pad 2 (minute t)
  else if (d =? 83)%N then zero_pad 2 (second t)
  else [37%N; d].

Fixpoint strftime (t : datetime) (fmt : pystr) : pystr :=
  match fmt with
  | [] => []
  | c :: rest =>
      if (c =? 37)%N then
        match rest with
        | [] => [c]
        | d :: rest' => directive d t ++ strftime t rest'
        end
      else c :: strftime t rest
  end.

(** [os.path.join(a, b)] of [posixpath]. *)
Definition path_join (a b : pystr) : pystr :=
  match b with
  | 47%N :: _ => b
  | _ =>
      match last a with
      | None => a ++ b
      | Some c => if (c =? 47)%N then a ++ b else a ++ py "/" ++ b
      end
  end.

(** ** The world the script acts on *)

Record world : Type := World {
  ticks : nat;                                    (* calls of datetime.now() *)
  crawler_calls : list (pystr * CrawlerRunConfig); (* calls of crawler.arun *)
  dirs : gset pystr;                              (* directories made *)
  files : gmap pystr pystr;                       (* text of each file *)
  stdout : list pystr                             (* printed lines *)
}.

(** The changes the script makes to the world: one more reading of the
    clock, one more call of the crawler, one more directory, a file set to
    a text, a text appended to a file, one more printed line. *)
Definition tick (w : world) : world :=
  World (S (ticks w)) (crawler_calls w) (dirs w) (files w) (stdout w).

Definition log_call (url : pystr) (config : CrawlerRunConfig) (w : world)
  : world :=
  World (ticks w) (crawler_calls w ++ [(url, config)]) (dirs w) (files w)
        (stdout w).

Definition add_dir (path : pystr) (w : world) : world :=
  World (ticks w) (crawler_calls w) ({[path]} ∪ dirs w) (files w) (stdout w).

Definition set_file (f c : pystr) (w : world) : world :=
  World (ticks w) (crawler_calls w) (dirs w) (<[f := c]> (files w))
        (stdout w).

Definition app_file (f s : pystr) (w : world) : world :=
  World (ticks w) (crawler_calls w) (dirs w)
        (<[f := default [] (files w !! f) ++ s]> (files w)) (stdout w).

Definition put_line (line : pystr) (w : world) : world :=
  World (ticks w) (crawler_calls w) (dirs w) (files w) (stdout w ++ [line]).

Definition M (A : Type) : Type := world → A * world.

#[global] Instance M_ret : MRet M := λ A (x : A) (w : world), (x, w).
#[global] Instance M_bind : MBind M :=
  λ A B (f : A → M B) (c : M A) (w : world), let (x, w') := c w in f x w'.

(** The world a computation leaves. *)
Definition exec {A} (c : M A) (w : world) : world := (c w).2.

(** [print(line)] *)
Definition print (line : pystr) : M unit := λ w, (tt, put_line line w).

(** [os.makedirs(path, exist_ok=True)] *)
Definition makedirs (path : pystr) : M unit := λ w, (tt, add_dir path w).

(** [open(path, 'w', encoding='utf-8')]: the file is created or emptied. *)
Definition open_w (path : pystr) : M unit := λ w, (tt, set_file path [] w).

(** [f.write(s)] on the file opened at [path]. *)
Definition fwrite (path : pystr) (s : pystr) : M unit := λ w,
  (tt, app_file path s w).

(** [json.dump(obj, f, indent=2, ensure_ascii=False)] *)
Definition json_dump (obj : json) (path : pystr) : M unit :=
  fwrite path (json_dumps obj).

(** [for x in l: body(x)] *)
Fixpoint for_each {A} (l : list A) (body : A → M unit) : M unit :=
  match l with
  | [] => mret tt
  | x :: l' => body x ;; for_each l' body
  end.

(** The constants of the script. *)
Definition seed_url : pystr := py "https://www.wikipedia.org".

Definition config : CrawlerRunConfig := {|
  deep_crawl_strategy :=
    {| max_depth := 2; max_pages := 200; include_external := false |};
  scraping_strategy := LXMLWebScrapingStrategy;
  verbose := true
|}.

Definition results_dir : pystr := py "crawl_results".

(** Lines 47-59: the body of the markdown loop. *)
Definition md_page (md_file : pystr) (ir : Z * CrawlResult) : M unit :=
  let (i, result) := ir in
  fwrite md_file (py "## Page " ++ str_int i ++ nl ++ nl) ;;
  fwrite md_file (py "**URL:** " ++ url result ++ nl) ;;
  fwrite md_file (py "**Depth:** "
                  ++ py_format (dict_get (metadata result) (py "depth") (PInt 0))
                  ++ nl) ;;
  fwrite md_file (py "**Status Code:** " ++ py_format (status_code result)
                  ++ nl) ;;
  fwrite md_file (py "**Content Length:** " ++ str_int (content_length result)
                  ++ py " characters" ++ nl ++ nl) ;;
  match cleaned_html result with
  | Some html =>
      if truthy_str (Some html) then
        fwrite md_file (py "**Content Preview:**" ++ nl ++ py "```" ++ nl
                        ++ content_preview html ++ nl ++ py "```" ++ nl ++ nl)
      else mret tt
  | None => mret tt
  end ;;
  fwrite md_file (py "---" ++ nl ++ nl).

(** Lines 71-83: the body of the text loop. *)
Definition txt_page (txt_file : pystr) (ir : Z * CrawlResult) : M unit :=
  let (i, result) := ir in
  fwrite txt_file (py "PAGE " ++ str_int i ++ nl) ;;
  fwrite txt_file (py "URL: " ++ url result ++ nl) ;;
  fwrite txt_file (py "Depth: "
                   ++ py_format (dict_get (metadata result) (py "depth") (PInt 0))
                   ++ nl) ;;
  fwrite txt_file (py "Status Code: " ++ py_format (status_code result)
                   ++ nl) ;;
  fwrite txt_file (py "Content Length: " ++ str_int (content_length result)
                   ++ py " characters" ++ nl ++ nl) ;;
  match cleaned_html result with
  | Some html =>
      if truthy_str (Some html) then
        fwrite txt_file (py "Content Preview:" ++ nl
                         ++ content_preview html ++ nl ++ nl)
      else mret tt
  | None => mret tt
  end ;;
  fwrite txt_file (str_mul (py "-") 50 ++ nl ++ nl).

(** Lines 97-108: the dict of one page, its keys in the order written. *)
Definition page_data (i : Z) (result : CrawlResult) : json :=
  JDict [
    (py "page_number", JInt i);
    (py "url", JStr (url result));
    (py "depth",
      json_of_pyval (dict_get (metadata result) (py "depth") (PInt 0)));
    (py "status_code", json_of_pyval (status_code result));
    (py "content_length", JInt (content_length result));
    (py "title",
      json_of_pyval (dict_get (metadata result) (py "title") (PStr [])));
    (py "description",
      json_of_pyval (dict_get (metadata result) (py "description") (PStr [])));
    (py "content_preview", JStr (content_preview_json (cleaned_html result)));
    (py "links_found", JInt (links_found result));
    (py "images_found", JInt (images_found result))
  ].

(** Lines 86-94: the dict before the loop fills its list. *)
Definition json_data_init (crawl_date : pystr) (results : list CrawlResult)
  : json :=
  JDict [
    (py "crawl_info", JDict [
       (py "crawl_date", JStr crawl_date);
       (py "total_pages_crawled", JInt (len results));
       (py "max_pages_limit", JInt 200);
       (py "starting_url", JStr (py "https://www.wikipedia.org"))
     ]);
    (py "results", JList [])
  ].

(** Lines 96-109: every page's dict is appended to the list under
    [results]. *)
Definition json_data (crawl_date : pystr) (results : list CrawlResult)
  : json :=
  fold_left (λ (json_data : json) (ir : Z * CrawlResult),
               json_list_append json_data (py "results")
                                (page_data ir.1 ir.2))
            (enumerate results 1)
            (json_data_init crawl_date results).

Section Run.

(** The environment of one run: what the [k]-th call of [datetime.now()]
    returns, and what the crawling library answers. *)
Variable clock : nat → datetime.
Variable crawler_arun : pystr → CrawlerRunConfig → list CrawlResult.

(** [datetime.now()] *)
Definition now : M datetime := λ w,
  (clock (ticks w), tick w).

(** [await crawler.arun(url, config=config)] *)
Definition arun (url : pystr) (config : CrawlerRunConfig)
  : M (list CrawlResult) := λ w,
  (crawler_arun url config, log_call url config w).

(** Lines 39-59. *)
Definition write_md (md_filename : pystr) (results : list CrawlResult)
  : M unit :=
  open_w md_filename ;;
  fwrite md_filename (py "# Web Crawling Results" ++ nl ++ nl) ;;
  t ← now ;
  fwrite md_filename (py "**Crawl Date:** "
                      ++ strftime t (py "%Y-%m-%d %H:%M:%S") ++ nl) ;;
  fwrite md_filename (py "**Total Pages Crawled:** " ++ str_int (len results)
                      ++ nl) ;;
  fwrite md_filename (py "**Max Pages Limit:** 200" ++ nl) ;;
  fwrite md_filename (py "**Starting URL:** https://www.wikipedia.org"
                      ++ nl ++ nl) ;;
  fwrite md_filename (py "---" ++ nl ++ nl) ;;
  for_each (enumerate results 1) (md_page md_filename).

(** Lines 62-83. *)
Definition write_txt (txt_filename : pystr) (results : list CrawlResult)
  : M unit :=
  open_w txt_filename ;;
  fwrite txt_filename (py "WEB CRAWLING RESULTS" ++ nl) ;;
  fwrite txt_filename (str_mul (py "=") 50 ++ nl ++ nl) ;;
  t ← now ;
  fwrite txt_filename (py "Crawl Date: "
                       ++ strftime t (py "%Y-%m-%d %H:%M:%S") ++ nl) ;;
  fwrite txt_filename (py "Total Pages Crawled: " ++ str_int (len results)
                       ++ nl) ;;
  fwrite txt_filename (py "Max Pages Limit: 200" ++ nl) ;;
  fwrite txt_filename (py "Starting URL: https://www.wikipedia.org"
                       ++ nl ++ nl) ;;
  fwrite txt_filename (str_mul (py "-") 50 ++ nl ++ nl) ;;
  for_each (enumerate results 1) (txt_page txt_filename).

(** Lines 86-112. *)
Definition write_json (json_filename : pystr) (results : list CrawlResult)
  : M unit :=
  t ← now ;
  let json_data := json_data (strftime t (py "%Y-%m-%d %H:%M:%S")) results in
  open_w json_filename ;;
  json_dump json_data json_filename.

(** Lines 9-122. *)
Definition main : M unit :=
  results ← arun seed_url config ;
  print (py "Crawled " ++ str_int (len results) ++ py " pages in total") ;;
  makedirs results_dir ;;
  t ← now ;
  let timestamp := strftime t (py "%Y%m%d_%H%M%S") in
  let md_filename :=
    path_join results_dir (py "crawl_results_" ++ timestamp ++ py ".md") in
  let txt_filename :=
    path_join results_dir (py "crawl_results_" ++ timestamp ++ py ".txt") in
  let json_filename :=
    path_join results_dir (py "crawl_results_" ++ timestamp ++ py ".json") in
  write_md md_filename results ;;
  write_txt txt_filename results ;;
  write_json json_filename results ;;
  print (py "Results saved to:") ;;
  print (py "  Markdown: " ++ md_filename) ;;
  print (py "  Text: " ++ txt_filename) ;;
  print (py "  JSON: " ++ json_filename) ;;
  for_each (take 3 results) (λ result,
    print (py "URL: " ++ url result) ;;
    print (py "Depth: "
           ++ py_format (dict_get (metadata result) (py "depth") (PInt 0)))).

End Run.

(** ** The text of the documents

    What the loops write, as plain strings: the statements below compare the
    files the script leaves with these. *)

(** The five lines that open a page of the markdown file. *)
Definition md_head (i : Z) (result : CrawlResult) : pystr :=
  (py "## Page " ++ str_int i ++ nl ++ nl)
  ++ (py "**URL:** " ++ url result ++ nl)
  ++ (py "**Depth:** "
      ++ py_format (dict_get (metadata result) (py "depth") (PInt 0)) ++ nl)
  ++ (py "**Status Code:** " ++ py_format (status_code result) ++ nl)
  ++ (py "**Content Length:** " ++ str_int (content_length result)
      ++ py " characters" ++ nl ++ nl).

(** The fenced preview block of the markdown file around a preview. *)
Definition md_block (preview : pystr) : pystr :=
  py "**Content Preview:**" ++ nl ++ py "```" ++ nl
  ++ preview ++ nl ++ py "```" ++ nl ++ nl.

Definition md_rule : pystr := py "---" ++ nl ++ nl.

(** The five lines that open a page of the text file. *)
Definition txt_head (i : Z) (result : CrawlResult) : pystr :=
  (py "PAGE " ++ str_int i ++ nl)
  ++ (py "URL: " ++ url result ++ nl)
  ++ (py "Depth: "
      ++ py_format (dict_get (metadata result) (py "depth") (PInt 0)) ++ nl)
  ++ (py "Status Code: " ++ py_format (status_code result) ++ nl)
  ++ (py "Content Length: " ++ str_int (content_length result)
      ++ py " characters" ++ nl ++ nl).

(** The preview block of the text file around a preview. *)
Definition txt_block (preview : pystr) : pystr :=
  py "Content Preview:" ++ nl ++ preview ++ nl ++ nl.

Definition txt_rule : pystr := str_mul (py "-") 50 ++ nl ++ nl.

(** The preview a page gets in the markdown and text files: none when
    [cleaned_html] is falsy. *)
Definition page_preview (result : CrawlResult) : option pystr :=
  match cleaned_html result with
  | Some html => if truthy_str (Some html) then Some (content_preview html)
                 else None
  | None => None
  end.

Definition md_section (ir : Z * CrawlResult) : pystr :=
  md_head ir.1 ir.2
  ++ from_option md_block [] (page_preview ir.2)
  ++ md_rule.

Definition txt_section (ir : Z * CrawlResult) : pystr :=
  txt_head ir.1 ir.2
  ++ from_option txt_block [] (page_preview ir.2)
  ++ txt_rule.

Definition md_header (crawl_date : pystr) (total : Z) : pystr :=
  (py "# Web Crawling Results" ++ nl ++ nl)
  ++ (py "**Crawl Date:** " ++ crawl_date ++ nl)
  ++ (py "**Total Pages Crawled:** " ++ str_int total ++ nl)
  ++ (py "**Max Pages Limit:** 200" ++ nl)
  ++ (py "**Starting URL:** https://www.wikipedia.org" ++ nl ++ nl)
  ++ (py "---" ++ nl ++ nl).

Definition txt_header (crawl_date : pystr) (total : Z) : pystr :=
  (py "WEB CRAWLING RESULTS" ++ nl)
  ++ (str_mul (py "=") 50 ++ nl ++ nl)
  ++ (py "Crawl Date: " ++ crawl_date ++ nl)
  ++ (py "Total Pages Crawled: " ++ str_int total ++ nl)
  ++ (py "Max Pages Limit: 200" ++ nl)
  ++ (py "Starting URL: https://www.wikipedia.org" ++ nl ++ nl)
  ++ (str_mul (py "-") 50 ++ nl ++ nl).

(** The pages of a run with their numbers: the [k]-th page (from 0) gets
    the number [k + 1]. *)
Definition numbered (results : list CrawlResult) : list (Z * CrawlResult) :=
  imap (λ k result, (Z.of_nat k + 1, result)) results.

Definition date_format : pystr := py "%Y-%m-%d %H:%M:%S".
Definition stamp_format : pystr := py "%Y%m%d_%H%M%S".

(** The markdown and the text file of a run whose crawl date was read
    at [t]. *)
Definition md_document (t : datetime) (results : list CrawlResult) : pystr :=
  md_header (strftime t date_format) (len results)
  ++ concat (map md_section (numbered results)).

Definition txt_document (t : datetime) (results : list CrawlResult) : pystr :=
  txt_header (strftime t date_format) (len results)
  ++ concat (map txt_section (numbered results)).

(** The pages of the JSON file. *)
Definition json_pages (results : list CrawlResult) : list json :=
  map (λ ir : Z * CrawlResult, page_data ir.1 ir.2) (numbered results).

(** The names of the three files of a run whose stamp is [timestamp]. *)
Definition out_name (timestamp ext : pystr) : pystr :=
  py "crawl_results/crawl_results_" ++ timestamp ++ ext.


(** The object under [crawl_info]. *)
Definition crawl_info (crawl_date : pystr) (total : Z) : json :=
  JDict [
    (py "crawl_date", JStr crawl_date);
    (py "total_pages_crawled", JInt total);
    (py "max_pages_limit", JInt 200);
    (py "starting_url", JStr (py "https://www.wikipedia.org"))
  ].

(** The page with its [cleaned_html] set to [None]. *)
Definition without_content (r : CrawlResult) : CrawlResult :=
  {| url := url r; metadata := metadata r; status_code := status_code r;
     cleaned_html := None; links := links r; media := media r |}.

(** ** The stamp in the file names *)

Definition is_digit (c : N) : bool := (48 <=? c)%N && (c <=? 57)%N.

(** Exactly [width] decimal digits. *)
Definition digits (width : nat) (s : pystr) : bool :=
  (length s =? width)%nat && forallb is_digit s.

(** The shape YYYYMMDD_HHMMSS: eight digits, an underscore, six digits. *)
Definition stamp_shape (s : pystr) : bool :=
  digits 8 (take 8 s) && bool_decide (s !! 8%nat = Some 95%N)
  && digits 6 (drop 9 s).

(** A reading of the clock of a running system: a date of the calendar with
    a year of four digits and a time of the day. *)
Definition valid_datetime (t : datetime) : Prop :=
  (1000 ≤ year t ≤ 9999)%N ∧ (1 ≤ month t ≤ 12)%N ∧ (1 ≤ day t ≤ 31)%N
  ∧ (hour t < 24)%N ∧ (minute t < 60)%N ∧ (second t < 60)%N.

(** A string between double quotes. *)
Definition quoted (s : pystr) : pystr := dquote :: s ++ [dquote].

(** ** Sample inputs *)

Definition sample_clock (k : nat) : datetime :=
  {| year := 2026; month := 11; day := 3;
     hour := 9; minute := 5; second := N.of_nat k |}.

Definition sample_world : world := World 0 [] ∅ ∅ [].

(** A page with nothing but a URL, a status code and, maybe, a text. *)
Definition sample_page (html : option pystr) : CrawlResult :=
  {| url := py "https://www.wikipedia.org"; metadata := ∅;
     status_code := PInt 200; cleaned_html := html;
     links := None; media := Some None |}.

Definition long_text : pystr := replicate 501 97%N.

(** The two pages of the end-to-end scenario. *)
Definition scenario_page_1 : CrawlResult :=
  {| url := py "https://www.wikipedia.org";
     metadata := {[ py "depth" := PInt 0; py "title" := PStr (py "Wikipedia") ]};
     status_code := PInt 200; cleaned_html := Some (py "Hello world");
     links := None; media := None |}.

Definition scenario_page_2 : CrawlResult :=
  {| url := py "https://www.wikipedia.org/wiki/Main_Page";
     metadata := {[ py "depth" := PInt 1 ]};
     status_code := PInt 200; cleaned_html := None;
     links := None; media := None |}.

Definition sample_crawl (u : pystr) (c : CrawlerRunConfig)
  : list CrawlResult :=
  [scenario_page_1; scenario_page_2].

(** A page of a document without a title: the crawler stores [None] under
    [title] and [description], and the page has no text, links or media. *)
Definition untitled_page : CrawlResult :=
  {| url := py "https://www.wikipedia.org/robots.txt";
     metadata := {[ py "depth" := PInt 1; py "title" := PNone;
                    py "description" := PNone ]};
     status_code := PInt 200; cleaned_html := None;
     links := Some None; media := Some None |}.

(** ** Reading a decimal number back *)

(** The number a string of decimal digits stands for. *)
Definition parse_N (s : pystr) : N :=
  fold_left (λ acc c, (acc * 10 + (c - 48))%N) s 0%N.

(** The lines the last loop prints for one page (lines 121-122). *)
Definition shown (result : CrawlResult) : list pystr :=
  [py "URL: " ++ url result;
   py "Depth: "
   ++ py_format (dict_get (metadata result) (py "depth") (PInt 0))].

(** A clock that stands still, and a crawl that finds nothing. *)
Definition still_clock (k : nat) : datetime := sample_clock 0.

Definition empty_crawl (u : pystr) (c : CrawlerRunConfig)
  : list CrawlResult := [].

(** A page with some links and images. *)
Definition linked_page : CrawlResult :=
  {| url := py "https://www.wikipedia.org"; metadata := ∅;
     status_code := PInt 200; cleaned_html := Some (replicate 501 97%N);
     links := Some (Some {[ py "internal" := [∅; ∅];
                            py "external" := [∅] ]});
     media := Some (Some {[ py "videos" := [∅] ]}) |}.

(** ** Lemmas on the monad and the writers *)

Lemma world_eta (w : world) :
  World (ticks w) (crawler_calls w) (dirs w) (files w) (stdout w) = w.
Proof. by destruct w. Qed.

(** Running a sequence: the first command, then the rest on its result. *)
Lemma run_bind {A B} (c : M A) (k : A → M B) (w w1 : world) (x : A)
    (r : B * world) :
  c w = (x, w1) → k x w1 = r → (c ≫= k) w = r.
Proof. intros Hc Hk. unfold mbind, M_bind. by rewrite Hc. Qed.

Lemma fwrite_eq (f s : pystr) (w : world) :
  fwrite f s w = (tt, app_file f s w).
Proof. reflexivity. Qed.

Lemma open_w_eq (f : pystr) (w : world) : open_w f w = (tt, set_file f [] w).
Proof. reflexivity. Qed.

Lemma print_eq (line : pystr) (w : world) :
  print line w = (tt, put_line line w).
Proof. reflexivity. Qed.

Lemma makedirs_eq (path : pystr) (w : world) :
  makedirs path w = (tt, add_dir path w).
Proof. reflexivity. Qed.

Lemma app_file_nil (f : pystr) (w : world) :
  is_Some (files w !! f) → app_file f [] w = w.
Proof.
  intros [c Hc]. unfold app_file. rewrite Hc. cbn [default from_option id].
  rewrite app_nil_r, insert_id by done. apply world_eta.
Qed.

Lemma app_file_app_file (f a b : pystr) (w : world) :
  app_file f b (app_file f a w) = app_file f (a ++ b) w.
Proof.
  unfold app_file. cbn [ticks crawler_calls dirs files stdout].
  rewrite lookup_insert_eq, insert_insert_eq. cbn [default from_option id].
  by rewrite app_assoc.
Qed.

Lemma app_file_set_file (f c s : pystr) (w : world) :
  app_file f s (set_file f c w) = set_file f (c ++ s) w.
Proof.
  unfold app_file, set_file. cbn [ticks crawler_calls dirs files stdout].
  by rewrite lookup_insert_eq, insert_insert_eq.
Qed.

Lemma app_file_tick_set_file (f c s : pystr) (w : world) :
  app_file f s (tick (set_file f c w)) = tick (set_file f (c ++ s) w).
Proof.
  unfold app_file, set_file, tick.
  cbn [ticks crawler_calls dirs files stdout].
  by rewrite lookup_insert_eq, insert_insert_eq.
Qed.

Lemma set_file_tick (f c : pystr) (w : world) :
  set_file f c (tick w) = tick (set_file f c w).
Proof. reflexivity. Qed.

Lemma app_file_is_Some (f s : pystr) (w : world) :
  is_Some (files (app_file f s w) !! f).
Proof.
  unfold app_file. cbn [files]. rewrite lookup_insert_eq. eauto.
Qed.

Lemma set_file_is_Some (f c : pystr) (w : world) :
  is_Some (files (tick (set_file f c w)) !! f).
Proof.
  unfold set_file, tick. cbn [files]. rewrite lookup_insert_eq. eauto.
Qed.

(** The fields of a changed world. *)
Lemma ticks_tick w : ticks (tick w) = S (ticks w).
Proof. reflexivity. Qed.
Lemma ticks_log_call u c w : ticks (log_call u c w) = ticks w.
Proof. reflexivity. Qed.
Lemma ticks_add_dir p w : ticks (add_dir p w) = ticks w.
Proof. reflexivity. Qed.
Lemma ticks_set_file f c w : ticks (set_file f c w) = ticks w.
Proof. reflexivity. Qed.
Lemma ticks_put_line l w : ticks (put_line l w) = ticks w.
Proof. reflexivity. Qed.

Lemma calls_tick w : crawler_calls (tick w) = crawler_calls w.
Proof. reflexivity. Qed.
Lemma calls_log_call u c w :
  crawler_calls (log_call u c w) = crawler_calls w ++ [(u, c)].
Proof. reflexivity. Qed.
Lemma calls_add_dir p w : crawler_calls (add_dir p w) = crawler_calls w.
Proof. reflexivity. Qed.
Lemma calls_set_file f c w : crawler_calls (set_file f c w) = crawler_calls w.
Proof. reflexivity. Qed.
Lemma calls_put_line l w : crawler_calls (put_line l w) = crawler_calls w.
Proof. reflexivity. Qed.

Lemma dirs_tick w : dirs (tick w) = dirs w.
Proof. reflexivity. Qed.
Lemma dirs_log_call u c w : dirs (log_call u c w) = dirs w.
Proof. reflexivity. Qed.
Lemma dirs_add_dir p w : dirs (add_dir p w) = {[p]} ∪ dirs w.
Proof. reflexivity. Qed.
Lemma dirs_set_file f c w : dirs (set_file f c w) = dirs w.
Proof. reflexivity. Qed.
Lemma dirs_put_line l w : dirs (put_line l w) = dirs w.
Proof. reflexivity. Qed.

Lemma files_tick w : files (tick w) = files w.
Proof. reflexivity. Qed.
Lemma files_log_call u c w : files (log_call u c w) = files w.
Proof. reflexivity. Qed.
Lemma files_add_dir p w : files (add_dir p w) = files w.
Proof. reflexivity. Qed.
Lemma files_set_file f c w : files (set_file f c w) = <[f := c]> (files w).
Proof. reflexivity. Qed.
Lemma files_put_line l w : files (put_line l w) = files w.
Proof. reflexivity. Qed.

Create Rewrite HintDb world_fields.
#[global] Hint Rewrite
  ticks_tick ticks_log_call ticks_add_dir ticks_set_file ticks_put_line
  calls_tick calls_log_call calls_add_dir calls_set_file calls_put_line
  dirs_tick dirs_log_call dirs_add_dir dirs_set_file dirs_put_line
  files_tick files_log_call files_add_dir files_set_file files_put_line
  : world_fields.

(** A loop whose body appends [g x] to the file appends the texts of all
    its rounds, in order. *)
Lemma for_each_fwrite {A} (f : pystr) (g : A → pystr) (body : A → M unit)
    (l : list A) :
  (∀ x w, body x w = (tt, app_file f (g x) w)) →
  ∀ w, is_Some (files w !! f) →
  for_each l body w = (tt, app_file f (concat (map g l)) w).
Proof.
  intros Hbody. induction l as [|x l IH]; intros w Hw.
  - cbn [for_each map concat]. by rewrite app_file_nil.
  - cbn [for_each map concat].
    eapply run_bind; [apply Hbody|].
    rewrite IH by apply app_file_is_Some.
    by rewrite app_file_app_file.
Qed.

(** One write of a sequence that appends to the file [f]. *)
Ltac write_step :=
  eapply run_bind; [apply fwrite_eq|]; rewrite ?app_file_app_file.

Lemma md_page_fwrite (f : pystr) (ir : Z * CrawlResult) (w : world) :
  md_page f ir w = (tt, app_file f (md_section ir) w).
Proof.
  destruct ir as [i r].
  unfold md_page, md_section, md_head, md_rule, md_block, page_preview.
  cbn [fst snd]. do 5 write_step.
  destruct (cleaned_html r) as [[|c s]|]; cbn [truthy_str from_option].
  - eapply run_bind; [reflexivity|]. rewrite fwrite_eq, app_file_app_file.
    by rewrite <- ?app_assoc.
  - write_step. rewrite fwrite_eq, app_file_app_file.
    by rewrite <- ?app_assoc.
  - eapply run_bind; [reflexivity|]. rewrite fwrite_eq, app_file_app_file.
    by rewrite <- ?app_assoc.
Qed.

Lemma txt_page_fwrite (f : pystr) (ir : Z * CrawlResult) (w : world) :
  txt_page f ir w = (tt, app_file f (txt_section ir) w).
Proof.
  destruct ir as [i r].
  unfold txt_page, txt_section, txt_head, txt_rule, txt_block, page_preview.
  cbn [fst snd]. do 5 write_step.
  destruct (cleaned_html r) as [[|c s]|]; cbn [truthy_str from_option].
  - eapply run_bind; [reflexivity|]. rewrite fwrite_eq, app_file_app_file.
    by rewrite <- ?app_assoc.
  - write_step. rewrite fwrite_eq, app_file_app_file.
    by rewrite <- ?app_assoc.
  - eapply run_bind; [reflexivity|]. rewrite fwrite_eq, app_file_app_file.
    by rewrite <- ?app_assoc.
Qed.

Lemma enumerate_imap {A} (l : list A) (start : Z) :
  enumerate l start = imap (λ k x, (Z.of_nat k + start, x)) l.
Proof.
  revert start. induction l as [|x l IH]; intros start; [done|].
  cbn [enumerate imap]. f_equal. rewrite IH. apply imap_ext.
  intros k y _. cbn. f_equal. lia.
Qed.

Lemma enumerate_numbered (results : list CrawlResult) :
  enumerate results 1 = numbered results.
Proof. apply enumerate_imap. Qed.

Lemma numbered_lookup (results : list CrawlResult) (k : nat) :
  numbered results !! k = (λ r, (Z.of_nat k + 1, r)) <$> results !! k.
Proof. unfold numbered. by rewrite list_lookup_imap. Qed.

Section RunLemmas.

Variable clock : nat → datetime.
Variable crawler_arun : pystr → CrawlerRunConfig → list CrawlResult.

Lemma now_eq (w : world) : now clock w = (clock (ticks w), tick w).
Proof. reflexivity. Qed.

Lemma arun_eq (u : pystr) (c : CrawlerRunConfig) (w : world) :
  arun crawler_arun u c w = (crawler_arun u c, log_call u c w).
Proof. reflexivity. Qed.

Lemma write_md_spec (f : pystr) (results : list CrawlResult) (w : world) :
  write_md clock f results w
  = (tt, tick (set_file f (md_document (clock (ticks w)) results) w)).
Proof.
  unfold write_md, md_document, md_header, date_format.
  rewrite enumerate_numbered.
  eapply run_bind; [apply open_w_eq|].
  eapply run_bind; [apply fwrite_eq|]. rewrite app_file_set_file.
  eapply run_bind; [apply now_eq|]. rewrite ticks_set_file.
  do 5 (eapply run_bind; [apply fwrite_eq|];
        rewrite app_file_tick_set_file).
  rewrite (for_each_fwrite f md_section)
    by (auto using md_page_fwrite, set_file_is_Some).
  rewrite app_file_tick_set_file, <- ?app_assoc. reflexivity.
Qed.

Lemma write_txt_spec (f : pystr) (results : list CrawlResult) (w : world) :
  write_txt clock f results w
  = (tt, tick (set_file f (txt_document (clock (ticks w)) results) w)).
Proof.
  unfold write_txt, txt_document, txt_header, date_format.
  rewrite enumerate_numbered.
  eapply run_bind; [apply open_w_eq|].
  do 2 (eapply run_bind; [apply fwrite_eq|]; rewrite app_file_set_file).
  eapply run_bind; [apply now_eq|]. rewrite ticks_set_file.
  do 5 (eapply run_bind; [apply fwrite_eq|];
        rewrite app_file_tick_set_file).
  rewrite (for_each_fwrite f txt_section)
    by (auto using txt_page_fwrite, set_file_is_Some).
  rewrite app_file_tick_set_file, <- ?app_assoc. reflexivity.
Qed.

Lemma write_json_spec (f : pystr) (results : list CrawlResult) (w : world) :
  write_json clock f results w
  = (tt, tick (set_file f
                 (json_dumps
                    (json_data (strftime (clock (ticks w)) date_format)
                               results)) w)).
Proof.
  unfold write_json, json_dump, date_format.
  eapply run_bind; [apply now_eq|]. cbv zeta.
  eapply run_bind; [apply open_w_eq|].
  rewrite fwrite_eq, app_file_set_file, set_file_tick. reflexivity.
Qed.

(** The printing loop at the end touches the standard output only. *)
Lemma for_each_print_frame {A} (l : list A) (g h : A → pystr) (w : world) :
  let w' := (for_each l (λ x, print (g x) ;; print (h x)) w).2 in
  ticks w' = ticks w ∧ crawler_calls w' = crawler_calls w
  ∧ dirs w' = dirs w ∧ files w' = files w.
Proof.
  revert w. induction l as [|x l IH]; intros w; [done|].
  cbn [for_each]. cbv zeta.
  erewrite run_bind;
    [| eapply run_bind; [apply print_eq | apply print_eq] | reflexivity].
  specialize (IH (put_line (h x) (put_line (g x) w))). cbv zeta in IH.
  autorewrite with world_fields in IH. exact IH.
Qed.

(** The three names of a run. *)
Lemma path_join_results_dir (timestamp ext : pystr) :
  path_join results_dir (py "crawl_results_" ++ timestamp ++ ext)
  = out_name timestamp ext.
Proof. reflexivity. Qed.

Lemma out_name_ext_inj (timestamp e1 e2 : pystr) :
  out_name timestamp e1 = out_name timestamp e2 → e1 = e2.
Proof.
  unfold out_name. intros H.
  apply (inj (app (py "crawl_results/crawl_results_"))) in H.
  by apply (inj (app timestamp)) in H.
Qed.

(** What one run leaves behind, apart from the standard output. *)
Lemma main_spec (w : world) :
  let results := crawler_arun seed_url config in
  let timestamp := strftime (clock (ticks w)) (py "%Y%m%d_%H%M%S") in
  let w' := exec (main clock crawler_arun) w in
  ticks w' = (4 + ticks w)%nat
  ∧ crawler_calls w' = crawler_calls w ++ [(seed_url, config)]
  ∧ dirs w' = {[results_dir]} ∪ dirs w
  ∧ files w' =
      <[out_name timestamp (py ".json") :=
          json_dumps (json_data (strftime (clock (3 + ticks w)%nat)
                                          date_format) results)]>
      (<[out_name timestamp (py ".txt") :=
          txt_document (clock (2 + ticks w)%nat) results]>
      (<[out_name timestamp (py ".md") :=
          md_document (clock (1 + ticks w)%nat) results]> (files w))).
Proof.
  intros results timestamp w'.
  assert (∃ l g h wl,
    main clock crawler_arun w
      = for_each l (λ x : CrawlResult, print (g x) ;; print (h x)) wl
    ∧ ticks wl = (4 + ticks w)%nat
    ∧ crawler_calls wl = crawler_calls w ++ [(seed_url, config)]
    ∧ dirs wl = {[results_dir]} ∪ dirs w
    ∧ files wl =
        <[out_name timestamp (py ".json") :=
            json_dumps (json_data (strftime (clock (3 + ticks w)%nat)
                                            date_format) results)]>
        (<[out_name timestamp (py ".txt") :=
            txt_document (clock (2 + ticks w)%nat) results]>
        (<[out_name timestamp (py ".md") :=
            md_document (clock (1 + ticks w)%nat) results]> (files w))))
    as (l & g & h & wl & Hmain & Hwl).
  { eexists _, _, _, _. split.
    - unfold main.
      eapply run_bind; [apply arun_eq|].
      eapply run_bind; [apply print_eq|].
      eapply run_bind; [apply makedirs_eq|].
      eapply run_bind; [apply now_eq|]. cbv zeta.
      rewrite !path_join_results_dir.
      eapply run_bind; [apply write_md_spec|].
      eapply run_bind; [apply write_txt_spec|].
      eapply run_bind; [apply write_json_spec|].
      do 4 (eapply run_bind; [apply print_eq|]).
      reflexivity.
    - autorewrite with world_fields. done. }
  subst w'. unfold exec. rewrite Hmain.
  pose proof (for_each_print_frame l g h wl) as H. cbv zeta in H.
  destruct H as (-> & -> & -> & ->). exact Hwl.
Qed.

Lemma main_files (w : world) :
  let results := crawler_arun seed_url config in
  let timestamp := strftime (clock (ticks w)) (py "%Y%m%d_%H%M%S") in
  let w' := exec (main clock crawler_arun) w in
  files w' !! out_name timestamp (py ".md")
    = Some (md_document (clock (1 + ticks w)%nat) results)
  ∧ files w' !! out_name timestamp (py ".txt")
    = Some (txt_document (clock (2 + ticks w)%nat) results)
  ∧ files w' !! out_name timestamp (py ".json")
    = Some (json_dumps (json_data (strftime (clock (3 + ticks w)%nat)
                                            date_format) results)).
Proof.
  intros results timestamp w'.
  destruct (main_spec w) as (_ & _ & _ & Hfiles).
  fold results timestamp w' in Hfiles. rewrite Hfiles.
  assert (out_name timestamp (py ".json") ≠ out_name timestamp (py ".txt"))
    as Hjt by (intros Heq%out_name_ext_inj; discriminate).
  assert (out_name timestamp (py ".json") ≠ out_name timestamp (py ".md"))
    as Hjm by (intros Heq%out_name_ext_inj; discriminate).
  assert (out_name timestamp (py ".txt") ≠ out_name timestamp (py ".md"))
    as Htm by (intros Heq%out_name_ext_inj; discriminate).
  rewrite lookup_insert_ne, lookup_insert_ne, lookup_insert_eq by done.
  rewrite lookup_insert_ne, lookup_insert_eq by done.
  by rewrite lookup_insert_eq.
Qed.

End RunLemmas.

(** ** The JSON value *)

Lemma fold_append_pages (info : json) (l : list (Z * CrawlResult))
    (acc : list json) :
  fold_left (λ (j : json) (ir : Z * CrawlResult),
               json_list_append j (py "results") (page_data ir.1 ir.2))
            l
            (JDict [(py "crawl_info", info); (py "results", JList acc)])
  = JDict [(py "crawl_info", info);
           (py "results",
            JList (acc ++ map (λ ir : Z * CrawlResult, page_data ir.1 ir.2) l))].
Proof.
  revert acc. induction l as [|ir l IH]; intros acc.
  - cbn [fold_left map]. by rewrite app_nil_r.
  - cbn [fold_left map]. unfold json_list_append at 2. cbn [map fst snd].
    rewrite decide_False by discriminate.
    rewrite decide_True by reflexivity.
    rewrite IH. by rewrite <- app_assoc.
Qed.

(** The loop of lines 96-109 leaves one dict per page, in order. *)
Lemma json_data_eq (crawl_date : pystr) (results : list CrawlResult) :
  json_data crawl_date results
  = JDict [(py "crawl_info", crawl_info crawl_date (len results));
           (py "results", JList (json_pages results))].
Proof.
  unfold json_data, json_data_init, json_pages.
  rewrite enumerate_numbered.
  exact (fold_append_pages (crawl_info crawl_date (len results))
                           (numbered results) []).
Qed.

Lemma length_json_pages (results : list CrawlResult) :
  length (json_pages results) = length results.
Proof. unfold json_pages, numbered. by rewrite length_map, length_imap. Qed.

(** ** The preview of a page *)

Lemma len_nil {A} : len (@nil A) = 0.
Proof. reflexivity. Qed.

Lemma page_preview_long (r : CrawlResult) (s : pystr) :
  cleaned_html r = Some s → 500 < len s →
  page_preview r = Some (take 500 s ++ py "...").
Proof.
  intros Hs Hlen. unfold page_preview, content_preview. rewrite Hs.
  destruct s as [|c s]; [rewrite len_nil in Hlen; lia|]. cbn [truthy_str].
  by rewrite (proj2 (Z.ltb_lt _ _) Hlen).
Qed.

Lemma page_preview_short (r : CrawlResult) (s : pystr) :
  cleaned_html r = Some s → len s ≤ 500 →
  page_preview r = if decide (s = []) then None else Some s.
Proof.
  intros Hs Hlen. unfold page_preview, content_preview. rewrite Hs.
  destruct s as [|c s]; [done|]. cbn [truthy_str].
  rewrite (proj2 (Z.ltb_ge _ _) Hlen). by rewrite decide_False.
Qed.

Lemma page_preview_falsy (r : CrawlResult) :
  cleaned_html r = None ∨ cleaned_html r = Some [] → page_preview r = None.
Proof. unfold page_preview. by intros [-> | ->]. Qed.

Lemma md_page_preview (f : pystr) (i : Z) (r : CrawlResult) (w : world) :
  md_page f (i, r) w
  = fwrite f (md_head i r ++ from_option md_block [] (page_preview r)
              ++ md_rule) w.
Proof. apply md_page_fwrite. Qed.

Lemma txt_page_preview (f : pystr) (i : Z) (r : CrawlResult) (w : world) :
  txt_page f (i, r) w
  = fwrite f (txt_head i r ++ from_option txt_block [] (page_preview r)
              ++ txt_rule) w.
Proof. apply txt_page_fwrite. Qed.

(** The fields of the dict of a page. *)
Lemma page_data_page_number (i : Z) (r : CrawlResult) :
  json_get (page_data i r) (py "page_number") = Some (JInt i).
Proof. reflexivity. Qed.

Lemma page_data_url (i : Z) (r : CrawlResult) :
  json_get (page_data i r) (py "url") = Some (JStr (url r)).
Proof. reflexivity. Qed.

Lemma page_data_depth (i : Z) (r : CrawlResult) :
  json_get (page_data i r) (py "depth")
  = Some (json_of_pyval (dict_get (metadata r) (py "depth") (PInt 0))).
Proof. reflexivity. Qed.

Lemma page_data_content_length (i : Z) (r : CrawlResult) :
  json_get (page_data i r) (py "content_length")
  = Some (JInt (content_length r)).
Proof. reflexivity. Qed.

Lemma page_data_title (i : Z) (r : CrawlResult) :
  json_get (page_data i r) (py "title")
  = Some (json_of_pyval (dict_get (metadata r) (py "title") (PStr []))).
Proof. reflexivity. Qed.

Lemma page_data_description (i : Z) (r : CrawlResult) :
  json_get (page_data i r) (py "description")
  = Some (json_of_pyval (dict_get (metadata r) (py "description") (PStr []))).
Proof. reflexivity. Qed.

Lemma page_data_content_preview (i : Z) (r : CrawlResult) :
  json_get (page_data i r) (py "content_preview")
  = Some (JStr (content_preview_json (cleaned_html r))).
Proof. reflexivity. Qed.

Lemma page_data_links_found (i : Z) (r : CrawlResult) :
  json_get (page_data i r) (py "links_found") = Some (JInt (links_found r)).
Proof. reflexivity. Qed.

Lemma page_data_images_found (i : Z) (r : CrawlResult) :
  json_get (page_data i r) (py "images_found") = Some (JInt (images_found r)).
Proof. reflexivity. Qed.

(** A [title] key that is present with the value [None] is not replaced:
    [dict.get] falls back on its default for a missing key only, and the
    field is written as null. *)
Lemma page_data_title_None (i : Z) (r : CrawlResult) :
  metadata r !! py "title" = Some PNone →
  json_get (page_data i r) (py "title") = Some JNull.
Proof. intros H. rewrite page_data_title. unfold dict_get. by rewrite H. Qed.

(** ** The shape of the stamp *)

Lemma zero_pad_digits_below (width bound : nat) :
  forallb (λ k, digits width (zero_pad width (N.of_nat k))) (seq 0 bound)
    = true →
  ∀ n : N, (n < N.of_nat bound)%N → digits width (zero_pad width n) = true.
Proof.
  intros Hall n Hn. rewrite forallb_forall in Hall.
  specialize (Hall (N.to_nat n)). rewrite N2Nat.id in Hall.
  apply Hall, in_seq. lia.
Qed.

Lemma zero_pad_2 (n : N) : (n < 100)%N → digits 2 (zero_pad 2 n) = true.
Proof. apply (zero_pad_digits_below 2 100). vm_compute. reflexivity. Qed.

Lemma zero_pad_4 (n : N) : (n < 10000)%N → digits 4 (zero_pad 4 n) = true.
Proof. apply (zero_pad_digits_below 4 10000). vm_compute. reflexivity. Qed.

Lemma digits_app (a b : nat) (s t : pystr) :
  digits a s = true → digits b t = true → digits (a + b) (s ++ t) = true.
Proof.
  unfold digits. rewrite !andb_true_iff, !Nat.eqb_eq, forallb_app.
  intros [<- ->] [<- ->]. by rewrite length_app.
Qed.

Lemma digits_length (a : nat) (s : pystr) :
  digits a s = true → length s = a.
Proof. unfold digits. rewrite andb_true_iff, Nat.eqb_eq. tauto. Qed.

Lemma strftime_stamp (t : datetime) :
  strftime t (py "%Y%m%d_%H%M%S")
  = (zero_pad 4 (year t) ++ zero_pad 2 (month t) ++ zero_pad 2 (day t))
    ++ 95%N
       :: (zero_pad 2 (hour t) ++ zero_pad 2 (minute t)
           ++ zero_pad 2 (second t)).
Proof.
  change (py "%Y%m%d_%H%M%S")
    with [37; 89; 37; 109; 37; 100; 95; 37; 72; 37; 77; 37; 83]%N.
  cbn [strftime N.eqb Pos.eqb]. unfold directive. cbn [N.eqb Pos.eqb].
  by rewrite <- !app_assoc, app_nil_r.
Qed.

Lemma stamp_shape_app (a b : pystr) :
  digits 8 a = true → digits 6 b = true → stamp_shape (a ++ 95%N :: b) = true.
Proof.
  intros Ha Hb. pose proof (digits_length _ _ Ha) as La.
  unfold stamp_shape.
  rewrite take_app_length' by done.
  rewrite lookup_app_r by lia. rewrite La. cbn [lookup list_lookup Nat.sub].
  rewrite bool_decide_eq_true_2 by done.
  replace (drop 9 (a ++ 95%N :: b)) with b.
  - by rewrite Ha, Hb.
  - rewrite drop_app_ge by lia. rewrite La. reflexivity.
Qed.

Lemma strftime_stamp_shape (t : datetime) :
  valid_datetime t → stamp_shape (strftime t (py "%Y%m%d_%H%M%S")) = true.
Proof.
  intros (Hy & Hm & Hd & HH & HM & HS). rewrite strftime_stamp.
  apply stamp_shape_app.
  - apply (digits_app 4 4); [apply zero_pad_4; lia|].
    apply (digits_app 2 2); apply zero_pad_2; lia.
  - apply (digits_app 2 4); [apply zero_pad_2; lia|].
    apply (digits_app 2 2); apply zero_pad_2; lia.
Qed.

(** ** The encoder *)

Lemma escape_char_plain (c : N) :
  (32 ≤ c)%N → c ≠ dquote → c ≠ backslash → escape_char c = [c].
Proof.
  intros Hc Hq Hb. unfold escape_char.
  rewrite (proj2 (N.eqb_neq c backslash)) by done.
  rewrite (proj2 (N.eqb_neq c dquote)) by done.
  rewrite !(proj2 (N.eqb_neq c _)) by lia.
  by rewrite (proj2 (N.ltb_ge c 32)) by lia.
Qed.

Lemma escape_char_non_ascii (c : N) : (127 < c)%N → escape_char c = [c].
Proof.
  intros Hc. apply escape_char_plain; unfold dquote, backslash; lia.
Qed.

Lemma flat_map_escape_non_ascii (s : pystr) :
  Forall (λ c, (127 < c)%N) s → flat_map escape_char s = s.
Proof.
  induction 1 as [|c s Hc _ IH]; [done|].
  cbn [flat_map]. by rewrite IH, escape_char_non_ascii.
Qed.

Lemma utf8_encode_app (a b : pystr) (x y : list N) :
  utf8_encode a = Some x → utf8_encode b = Some y →
  utf8_encode (a ++ b) = Some (x ++ y).
Proof.
  revert x. induction a as [|c a IH]; intros x Ha Hb.
  - by simplify_eq/=.
  - cbn [utf8_encode app] in Ha |- *.
    destruct (utf8_char c) as [bc|]; [|done].
    destruct (utf8_encode a) as [ba|]; [|done].
    simplify_eq. rewrite (IH ba) by done. by rewrite app_assoc.
Qed.

(** The encoder on a container that is not empty. *)
Lemma iterencode_list (indent lvl : nat) (l : list json) :
  l ≠ [] →
  iterencode indent lvl (JList l)
  = py "[" ++ newline_indent indent (S lvl)
    ++ join (py "," ++ newline_indent indent (S lvl))
            (map (iterencode indent (S lvl)) l)
    ++ newline_indent indent lvl ++ py "]".
Proof. by destruct l. Qed.

Lemma iterencode_dict (indent lvl : nat) (items : list (pystr * json)) :
  items ≠ [] →
  iterencode indent lvl (JDict items)
  = py "{" ++ newline_indent indent (S lvl)
    ++ join (py "," ++ newline_indent indent (S lvl))
            (map (λ kv : pystr * json,
                    py_encode_basestring kv.1 ++ py ": "
                    ++ iterencode indent (S lvl) kv.2) items)
    ++ newline_indent indent lvl ++ py "}".
Proof. by destruct items. Qed.

Lemma iterencode_int (indent lvl : nat) (i : Z) :
  iterencode indent lvl (JInt i) = str_int i.
Proof. reflexivity. Qed.

Lemma iterencode_str (indent lvl : nat) (s : pystr) :
  iterencode indent lvl (JStr s) = py_encode_basestring s.
Proof. reflexivity. Qed.

(** A key of the script holds nothing to escape. *)
Lemma encode_key (k : string) :
  forallb (λ c, (32 <=? c)%N && negb (c =? dquote)%N
                && negb (c =? backslash)%N) (py k) = true →
  py_encode_basestring (py k) = quoted (py k).
Proof.
  intros Hk. unfold py_encode_basestring, quoted. do 2 f_equal.
  rewrite forallb_forall in Hk. induction (py k) as [|c s IH]; [done|].
  cbn [flat_map]. rewrite IH by (intros x Hx; apply Hk; by right).
  specialize (Hk c (or_introl eq_refl)).
  rewrite !andb_true_iff, !negb_true_iff, !N.eqb_neq, N.leb_le in Hk.
  by rewrite escape_char_plain by tauto.
Qed.

(** Strings put end to end, however they are bracketed. *)
Ltac flatten_apps :=
  repeat (rewrite <- app_assoc || rewrite <- app_comm_cons).

(** * The claims *)

(** C1. A page whose [cleaned_html] has more than 500 characters gets, in
    the markdown block, in the text block and in the JSON field
    [content_preview], the same preview: the first 500 characters followed
    by three dots. *)
Theorem preview_truncated (f : pystr) (i : Z) (r : CrawlResult) (s : pystr)
    (w : world) :
  cleaned_html r = Some s → 500 < len s →
  let preview := take 500 s ++ py "..." in
  md_page f (i, r) w = fwrite f (md_head i r ++ md_block preview ++ md_rule) w
  ∧ txt_page f (i, r) w
    = fwrite f (txt_head i r ++ txt_block preview ++ txt_rule) w
  ∧ json_get (page_data i r) (py "content_preview") = Some (JStr preview).
Proof.
  intros Hs Hlen preview.
  rewrite md_page_preview, txt_page_preview, page_data_content_preview.
  rewrite (page_preview_long r s Hs Hlen). repeat split; [].
  rewrite Hs. unfold content_preview_json.
  destruct s as [|c s]; [rewrite len_nil in Hlen; lia|].
  cbn [truthy_str andb].
  by rewrite (proj2 (Z.ltb_lt _ _) Hlen).
Qed.

(** C2. A page whose [cleaned_html] is [None] has content length 0 in all
    three outputs, the empty string as its JSON [content_preview], and no
    preview block in the markdown and text files: the rule follows the five
    head lines at once. *)
Theorem absent_content (f : pystr) (i : Z) (r : CrawlResult) (w : world) :
  cleaned_html r = None →
  content_length r = 0
  ∧ json_get (page_data i r) (py "content_length") = Some (JInt 0)
  ∧ json_get (page_data i r) (py "content_preview") = Some (JStr [])
  ∧ md_page f (i, r) w = fwrite f (md_head i r ++ md_rule) w
  ∧ txt_page f (i, r) w = fwrite f (txt_head i r ++ txt_rule) w.
Proof.
  intros Hs.
  rewrite md_page_preview, txt_page_preview, page_data_content_preview,
    page_data_content_length.
  rewrite page_preview_falsy by auto.
  unfold content_length. by rewrite Hs.
Qed.

(** C9. A page whose [cleaned_html] is the empty string is written exactly
    as the same page with [cleaned_html] set to [None]: content length 0,
    the empty string as JSON [content_preview], and no preview block in the
    markdown and text files. *)
Theorem empty_content_as_absent (f : pystr) (i : Z) (r : CrawlResult)
    (w : world) :
  cleaned_html r = Some [] →
  (content_length r = 0
   ∧ json_get (page_data i r) (py "content_preview") = Some (JStr [])
   ∧ md_page f (i, r) w = fwrite f (md_head i r ++ md_rule) w
   ∧ txt_page f (i, r) w = fwrite f (txt_head i r ++ txt_rule) w)
  ∧ (md_page f (i, r) w = md_page f (i, without_content r) w
     ∧ txt_page f (i, r) w = txt_page f (i, without_content r) w
     ∧ page_data i r = page_data i (without_content r)).
Proof.
  intros Hs.
  rewrite !md_page_preview, !txt_page_preview, page_data_content_preview.
  rewrite !page_preview_falsy by auto.
  unfold page_data, md_head, txt_head, content_length. rewrite Hs. cbn.
  done.
Qed.

(** C10. A page whose [cleaned_html] is a string of at most 500 characters
    (500 included) is previewed by that string as it is, without dots and
    without a cut: it is the value of lines 56 and 80, the JSON field
    [content_preview], and the text inside the markdown and text blocks.
    The block is written for every such string but the empty one, for which
    lines 56 and 80 are not reached and the previewed text is empty as
    well. *)
Theorem preview_unchanged (f : pystr) (i : Z) (r : CrawlResult) (s : pystr)
    (w : world) :
  cleaned_html r = Some s → len s ≤ 500 →
  content_preview s = s
  ∧ json_get (page_data i r) (py "content_preview") = Some (JStr s)
  ∧ page_preview r = (if decide (s = []) then None else Some s)
  ∧ md_page f (i, r) w
    = fwrite f (md_head i r
                ++ (if decide (s = []) then [] else md_block s)
                ++ md_rule) w
  ∧ txt_page f (i, r) w
    = fwrite f (txt_head i r
                ++ (if decide (s = []) then [] else txt_block s)
                ++ txt_rule) w.
Proof.
  intros Hs Hlen.
  rewrite md_page_preview, txt_page_preview, page_data_content_preview.
  rewrite (page_preview_short r s Hs Hlen), Hs.
  unfold content_preview, content_preview_json.
  rewrite (proj2 (Z.ltb_ge _ _) Hlen), andb_false_r.
  destruct s as [|c s]; cbn; done.
Qed.

(** C3. In the JSON file of every run, the array under [results] has as
    many entries as [crawl_info.total_pages_crawled] says, and as many as
    the crawl returned pages. *)
Theorem json_results_count (clock : nat → datetime)
    (crawler_arun : pystr → CrawlerRunConfig → list CrawlResult)
    (w : world) :
  let results := crawler_arun seed_url config in
  let timestamp := strftime (clock (ticks w)) (py "%Y%m%d_%H%M%S") in
  let crawl_date := strftime (clock (3 + ticks w)%nat) date_format in
  let w' := exec (main clock crawler_arun) w in
  let info := crawl_info crawl_date (len results) in
  let pages := json_pages results in
  files w' !! (py "crawl_results/crawl_results_" ++ timestamp ++ py ".json")
    = Some (json_dumps (JDict [(py "crawl_info", info);
                               (py "results", JList pages)]))
  ∧ json_get info (py "total_pages_crawled") = Some (JInt (len pages))
  ∧ length pages = length results.
Proof.
  intros results timestamp crawl_date w' info pages.
  destruct (main_files clock crawler_arun w) as (_ & _ & Hjson).
  fold results w' crawl_date in Hjson. rewrite json_data_eq in Hjson.
  split; [exact Hjson|].
  assert (length pages = length results) as Hlen
    by (unfold pages, json_pages, numbered;
        by rewrite length_map, length_imap).
  split; [|exact Hlen]. unfold len. by rewrite Hlen.
Qed.

(** C4. In every run the three loops go over the pages numbered from 1 in
    the order the crawl returned them: the page at position [k] (from 0)
    has the number [k + 1], and there are as many numbered pages as pages.
    The markdown and the text file are their header followed by one section
    per numbered page, in that order, and the section of the [k]-th page
    opens with the number [k + 1] and the URL of that page; the JSON array
    holds one entry per numbered page, in that order, and the [k]-th entry
    carries [k + 1] as [page_number], next to the URL of that page. *)
Theorem page_numbering (clock : nat → datetime)
    (crawler_arun : pystr → CrawlerRunConfig → list CrawlResult)
    (w : world) (k : nat) (r : CrawlResult) :
  let results := crawler_arun seed_url config in
  let timestamp := strftime (clock (ticks w)) (py "%Y%m%d_%H%M%S") in
  let date (n : nat) := strftime (clock (n + ticks w)%nat) date_format in
  let w' := exec (main clock crawler_arun) w in
  let i := Z.of_nat k + 1 in
  results !! k = Some r →
  (enumerate results 1 !! k = Some (i, r)
   ∧ length (enumerate results 1) = length results)
  ∧ (files w' !! (py "crawl_results/crawl_results_" ++ timestamp ++ py ".md")
       = Some (md_header (date 1%nat) (len results)
               ++ concat (map md_section (enumerate results 1)))
     ∧ ∃ rest : pystr,
         md_section (i, r)
         = py "## Page " ++ str_int i ++ nl ++ nl
           ++ py "**URL:** " ++ url r ++ nl ++ rest)
  ∧ (files w' !! (py "crawl_results/crawl_results_" ++ timestamp ++ py ".txt")
       = Some (txt_header (date 2%nat) (len results)
               ++ concat (map txt_section (enumerate results 1)))
     ∧ ∃ rest : pystr,
         txt_section (i, r)
         = py "PAGE " ++ str_int i ++ nl
           ++ py "URL: " ++ url r ++ nl ++ rest)
  ∧ (files w' !! (py "crawl_results/crawl_results_" ++ timestamp
                  ++ py ".json")
       = Some (json_dumps
                 (JDict [(py "crawl_info",
                          crawl_info (date 3%nat) (len results));
                         (py "results",
                          JList (map (λ ir : Z * CrawlResult,
                                        page_data ir.1 ir.2)
                                     (enumerate results 1)))]))
     ∧ json_get (page_data i r) (py "page_number") = Some (JInt i)
     ∧ json_get (page_data i r) (py "url") = Some (JStr (url r))).
Proof.
  intros results timestamp date w' i Hk.
  destruct (main_files clock crawler_arun w) as (Hmd & Htxt & Hjson).
  fold results w' in Hmd, Htxt, Hjson. rewrite json_data_eq in Hjson.
  rewrite !enumerate_numbered.
  split; [|split; [|split]].
  - split; [by rewrite numbered_lookup, Hk | apply length_imap].
  - split; [exact Hmd|]. eexists.
    unfold md_section, md_head. cbn [fst snd].
    rewrite <- !app_assoc. reflexivity.
  - split; [exact Htxt|]. eexists.
    unfold txt_section, txt_head. cbn [fst snd].
    rewrite <- !app_assoc. reflexivity.
  - split; [exact Hjson|]. done.
Qed.

(** C7. [main] has no argument.  Every run calls the crawling library
    exactly once, with the seed URL https://www.wikipedia.org and the
    configuration [max_depth = 2], [max_pages = 200],
    [include_external = False], and writes out what that call returned. *)
Theorem fixed_crawl_call (clock : nat → datetime)
    (crawler_arun : pystr → CrawlerRunConfig → list CrawlResult)
    (w : world) :
  crawler_calls (exec (main clock crawler_arun) w)
  = crawler_calls w
    ++ [(py "https://www.wikipedia.org",
         {| deep_crawl_strategy :=
              {| max_depth := 2; max_pages := 200;
                 include_external := false |};
            scraping_strategy := LXMLWebScrapingStrategy;
            verbose := true |})].
Proof. by destruct (main_spec clock crawler_arun w) as (_ & -> & _). Qed.


(** C5. A run reads the clock four times and names its files after the
    first reading only, formatted once: the three files it writes are
    crawl_results/crawl_results_<stamp>.md, .txt and .json with one and the
    same stamp, whatever the later readings are, and the stamp of a valid
    reading has the shape YYYYMMDD_HHMMSS. *)
Theorem shared_timestamp (clock : nat → datetime)
    (crawler_arun : pystr → CrawlerRunConfig → list CrawlResult)
    (w : world) :
  let timestamp := strftime (clock (ticks w)) (py "%Y%m%d_%H%M%S") in
  let w' := exec (main clock crawler_arun) w in
  valid_datetime (clock (ticks w)) →
  stamp_shape timestamp = true
  ∧ ticks w' = (4 + ticks w)%nat
  ∧ dirs w' = {[py "crawl_results"]} ∪ dirs w
  ∧ dom (files w')
    = {[py "crawl_results/crawl_results_" ++ timestamp ++ py ".md";
        py "crawl_results/crawl_results_" ++ timestamp ++ py ".txt";
        py "crawl_results/crawl_results_" ++ timestamp ++ py ".json"]}
      ∪ dom (files w).
Proof.
  intros timestamp w' Hvalid.
  destruct (main_spec clock crawler_arun w) as (Hticks & _ & Hdirs & Hfiles).
  fold timestamp w' in Hticks, Hdirs, Hfiles.
  split; [by apply strftime_stamp_shape|].
  split; [exact Hticks|]. split; [exact Hdirs|].
  rewrite Hfiles, !dom_insert_L. unfold out_name. set_solver.
Qed.

(** What the script does for a key or an attribute that is not there:
    without a [depth] key in the metadata the depth is 0, in the f-strings
    and in the JSON dict; without a [title] or [description] key the JSON
    field is the empty string; without a [links] attribute, or with [None]
    for it, [links_found] is 0; without a [media] attribute, or with [None]
    for it, [images_found] is 0.  A key that is there with the value [None]
    is another matter, see below. *)
Lemma missing_fields_default (i : Z) (r : CrawlResult) :
  (metadata r !! py "depth" = None →
   dict_get (metadata r) (py "depth") (PInt 0) = PInt 0
   ∧ py_format (dict_get (metadata r) (py "depth") (PInt 0)) = py "0"
   ∧ json_get (page_data i r) (py "depth") = Some (JInt 0))
  ∧ (metadata r !! py "title" = None →
     json_get (page_data i r) (py "title") = Some (JStr []))
  ∧ (metadata r !! py "description" = None →
     json_get (page_data i r) (py "description") = Some (JStr []))
  ∧ (links r = None ∨ links r = Some None →
     json_get (page_data i r) (py "links_found") = Some (JInt 0))
  ∧ (media r = None ∨ media r = Some None →
     json_get (page_data i r) (py "images_found") = Some (JInt 0)).
Proof.
  rewrite page_data_depth, page_data_title, page_data_description,
    page_data_links_found, page_data_images_found.
  unfold dict_get, links_found, images_found.
  split; [|split; [|split; [|split]]].
  - by intros ->.
  - by intros ->.
  - by intros ->.
  - by intros [-> | ->].
  - by intros [-> | ->].
Qed.

(** C6. A page without a title and without a description, as the crawler
    hands it over with [None] stored under both keys, is not given the
    empty string: [metadata.get] falls back on its default for a missing
    key only, so lines 103 and 104 pass the [None] on and the JSON file
    says null for both fields.  On the same page the neighbouring lines do
    replace a [None]: line 105 writes the empty string for the missing
    text, lines 106 and 107 write 0 for the missing links and media. *)
Theorem title_none_written_as_null :
  (metadata untitled_page !! py "title" = Some PNone
   ∧ metadata untitled_page !! py "description" = Some PNone
   ∧ cleaned_html untitled_page = None
   ∧ links untitled_page = Some None
   ∧ media untitled_page = Some None)
  ∧ (json_get (page_data 1 untitled_page) (py "title") = Some JNull
     ∧ json_get (page_data 1 untitled_page) (py "description") = Some JNull
     ∧ iterencode 2 3 JNull = py "null")
  ∧ (json_get (page_data 1 untitled_page) (py "title") ≠ Some (JStr [])
     ∧ json_get (page_data 1 untitled_page) (py "description")
       ≠ Some (JStr []))
  ∧ (json_get (page_data 1 untitled_page) (py "content_preview")
       = Some (JStr [])
     ∧ json_get (page_data 1 untitled_page) (py "links_found")
       = Some (JInt 0)
     ∧ json_get (page_data 1 untitled_page) (py "images_found")
       = Some (JInt 0)).
Proof.
  assert (metadata untitled_page !! py "title" = Some PNone) as Htitle
    by (vm_compute; reflexivity).
  assert (metadata untitled_page !! py "description" = Some PNone)
    as Hdescription by (vm_compute; reflexivity).
  assert (json_get (page_data 1 untitled_page) (py "title") = Some JNull)
    as Hjt
    by (rewrite page_data_title; unfold dict_get; by rewrite Htitle).
  assert (json_get (page_data 1 untitled_page) (py "description")
          = Some JNull) as Hjd
    by (rewrite page_data_description; unfold dict_get;
        by rewrite Hdescription).
  split; [by split_and!|]. split; [by split_and!|].
  split; [rewrite Hjt, Hjd; by split|].
  by split_and!.
Qed.

(** C8. The JSON file of a run is the dump of the dict built by lines
    86-109.  The dump puts every member and every entry on a line of its
    own, indented by two spaces per nesting level; the ten fields of a page
    come in the order they are written in the script; and a character
    outside ASCII is written as it is, not as an escape, so that the file,
    opened as UTF-8, holds its UTF-8 bytes. *)
Theorem json_serialisation :
  (∀ (clock : nat → datetime)
     (crawler_arun : pystr → CrawlerRunConfig → list CrawlResult)
     (w : world),
     let results := crawler_arun seed_url config in
     let timestamp := strftime (clock (ticks w)) (py "%Y%m%d_%H%M%S") in
     let crawl_date := strftime (clock (3 + ticks w)%nat) date_format in
     files (exec (main clock crawler_arun) w)
       !! (py "crawl_results/crawl_results_" ++ timestamp ++ py ".json")
     = Some (json_dumps (json_data crawl_date results)))
  ∧ (∀ (crawl_date : pystr) (results : list CrawlResult),
       json_dumps (json_data crawl_date results)
       = py "{" ++ nl
         ++ py "  " ++ quoted (py "crawl_info") ++ py ": {" ++ nl
         ++ py "    " ++ quoted (py "crawl_date") ++ py ": "
                      ++ py_encode_basestring crawl_date ++ py "," ++ nl
         ++ py "    " ++ quoted (py "total_pages_crawled") ++ py ": "
                      ++ str_int (len results) ++ py "," ++ nl
         ++ py "    " ++ quoted (py "max_pages_limit") ++ py ": 200,"
                      ++ nl
         ++ py "    " ++ quoted (py "starting_url") ++ py ": "
                      ++ quoted (py "https://www.wikipedia.org") ++ nl
         ++ py "  }," ++ nl
         ++ py "  " ++ quoted (py "results") ++ py ": "
         ++ match results with
            | [] => py "[]"
            | _ => py "[" ++ nl ++ py "    "
                   ++ join (py "," ++ nl ++ py "    ")
                           (map (λ ir : Z * CrawlResult,
                                   iterencode 2 2 (page_data ir.1 ir.2))
                                (enumerate results 1))
                   ++ nl ++ py "  ]"
            end
         ++ nl ++ py "}")
  ∧ (∀ (i : Z) (r : CrawlResult),
       iterencode 2 2 (page_data i r)
       = py "{" ++ nl
         ++ py "      " ++ quoted (py "page_number") ++ py ": "
            ++ str_int i ++ py "," ++ nl
         ++ py "      " ++ quoted (py "url") ++ py ": "
            ++ py_encode_basestring (url r) ++ py "," ++ nl
         ++ py "      " ++ quoted (py "depth") ++ py ": "
            ++ iterencode 2 3
                 (json_of_pyval (dict_get (metadata r) (py "depth") (PInt 0)))
            ++ py "," ++ nl
         ++ py "      " ++ quoted (py "status_code") ++ py ": "
            ++ iterencode 2 3 (json_of_pyval (status_code r))
            ++ py "," ++ nl
         ++ py "      " ++ quoted (py "content_length") ++ py ": "
            ++ str_int (content_length r) ++ py "," ++ nl
         ++ py "      " ++ quoted (py "title") ++ py ": "
            ++ iterencode 2 3
                 (json_of_pyval (dict_get (metadata r) (py "title") (PStr [])))
            ++ py "," ++ nl
         ++ py "      " ++ quoted (py "description") ++ py ": "
            ++ iterencode 2 3
                 (json_of_pyval
                    (dict_get (metadata r) (py "description") (PStr [])))
            ++ py "," ++ nl
         ++ py "      " ++ quoted (py "content_preview") ++ py ": "
            ++ py_encode_basestring (content_preview_json (cleaned_html r))
            ++ py "," ++ nl
         ++ py "      " ++ quoted (py "links_found") ++ py ": "
            ++ str_int (links_found r) ++ py "," ++ nl
         ++ py "      " ++ quoted (py "images_found") ++ py ": "
            ++ str_int (images_found r) ++ nl
         ++ py "    }")
  ∧ (∀ c : N, (127 < c)%N → escape_char c = [c])
  ∧ (∀ (s : pystr) (bytes : list N),
       Forall (λ c, (127 < c)%N) s →
       utf8_encode s = Some bytes →
       py_encode_basestring s = quoted s
       ∧ utf8_encode (py_encode_basestring s)
         = Some (dquote :: bytes ++ [dquote])).
Proof.
  split; [|split; [|split; [|split]]].
  - intros clock crawler_arun w results timestamp crawl_date.
    destruct (main_files clock crawler_arun w) as (_ & _ & Hjson).
    exact Hjson.
  - intros crawl_date results. rewrite json_data_eq.
    unfold json_pages, json_dumps, crawl_info.
    rewrite <- enumerate_numbered.
    rewrite iterencode_dict by done. cbn [map join fst snd].
    rewrite iterencode_dict by done. cbn [map join fst snd].
    rewrite !iterencode_int, !iterencode_str.
    rewrite !encode_key by reflexivity.
    destruct results as [|r results].
    + unfold newline_indent, quoted. flatten_apps. reflexivity.
    + rewrite iterencode_list by done. rewrite map_map.
      unfold newline_indent, quoted. flatten_apps. reflexivity.
  - intros i r. unfold page_data.
    rewrite iterencode_dict by done. cbn [map join fst snd].
    rewrite !iterencode_int, !iterencode_str.
    rewrite !encode_key by reflexivity.
    unfold newline_indent, quoted. flatten_apps. reflexivity.
  - apply escape_char_non_ascii.
  - intros s bytes Hs Hbytes. unfold py_encode_basestring, quoted.
    rewrite flat_map_escape_non_ascii by done. split; [done|].
    change (dquote :: s ++ [dquote]) with ([dquote] ++ s ++ [dquote]).
    rewrite (utf8_encode_app [dquote] (s ++ [dquote]) [dquote]
                             (bytes ++ [dquote])); [done|done|].
    by apply utf8_encode_app.
Qed.

(** The end-to-end scenario: two pages, the first with the text
    [Hello world], the second without a text. *)
Example end_to_end_scenario :
  let pages := json_pages (sample_crawl seed_url config) in
  length pages = 2%nat
  ∧ (pages !! 0%nat ≫= λ p, json_get p (py "content_length"))
    = Some (JInt 11)
  ∧ (pages !! 0%nat ≫= λ p, json_get p (py "content_preview"))
    = Some (JStr (py "Hello world"))
  ∧ (pages !! 1%nat ≫= λ p, json_get p (py "content_length"))
    = Some (JInt 0)
  ∧ (pages !! 1%nat ≫= λ p, json_get p (py "content_preview"))
    = Some (JStr []).
Proof. repeat split. Qed.

(** * The claims at sample inputs *)

Lemma preview_truncated_witness :
  cleaned_html (sample_page (Some long_text)) = Some long_text
  ∧ 500 < len long_text
  ∧ json_get (page_data 1 (sample_page (Some long_text)))
             (py "content_preview")
    = Some (JStr (take 500 long_text ++ py "...")).
Proof.
  split; [reflexivity|]. split; [vm_compute; reflexivity|].
  apply (preview_truncated (py "out.md") 1 (sample_page (Some long_text))
                           long_text sample_world);
    [reflexivity | vm_compute; reflexivity].
Defined.

Lemma absent_content_witness :
  cleaned_html (sample_page None) = None
  ∧ content_length (sample_page None) = 0.
Proof.
  split; [reflexivity|].
  apply (absent_content (py "out.md") 1 (sample_page None) sample_world).
  reflexivity.
Defined.

Lemma empty_content_as_absent_witness :
  cleaned_html (sample_page (Some [])) = Some []
  ∧ page_data 1 (sample_page (Some []))
    = page_data 1 (without_content (sample_page (Some []))).
Proof.
  split; [reflexivity|].
  apply (empty_content_as_absent (py "out.md") 1 (sample_page (Some []))
                                 sample_world).
  reflexivity.
Defined.

Lemma preview_unchanged_witness :
  cleaned_html (sample_page (Some (replicate 500 97%N)))
    = Some (replicate 500 97%N)
  ∧ len (replicate 500 97%N) ≤ 500
  ∧ content_preview (replicate 500 97%N) = replicate 500 97%N.
Proof.
  split; [reflexivity|]. split; [vm_compute; discriminate|].
  apply (preview_unchanged (py "out.md") 1
           (sample_page (Some (replicate 500 97%N))) (replicate 500 97%N)
           sample_world);
    [reflexivity | vm_compute; discriminate].
Defined.

Lemma page_numbering_witness :
  sample_crawl seed_url config !! 1%nat = Some scenario_page_2
  ∧ enumerate (sample_crawl seed_url config) 1 !! 1%nat
    = Some (2, scenario_page_2).
Proof.
  split; [reflexivity|].
  apply (page_numbering sample_clock sample_crawl sample_world 1
                        scenario_page_2).
  reflexivity.
Defined.

Lemma shared_timestamp_witness :
  valid_datetime (sample_clock 0)
  ∧ stamp_shape (strftime (sample_clock 0) (py "%Y%m%d_%H%M%S")) = true.
Proof.
  assert (valid_datetime (sample_clock 0)) as Hvalid
    by (unfold valid_datetime; cbn; lia).
  split; [exact Hvalid|].
  apply (shared_timestamp sample_clock sample_crawl sample_world Hvalid).
Defined.

Lemma missing_fields_default_witness :
  (metadata (sample_page None) !! py "depth" = None
   ∧ metadata (sample_page None) !! py "title" = None
   ∧ metadata (sample_page None) !! py "description" = None
   ∧ links (sample_page None) = None
   ∧ media (sample_page None) = Some None)
  ∧ json_get (page_data 1 (sample_page None)) (py "depth") = Some (JInt 0)
  ∧ json_get (page_data 1 (sample_page None)) (py "title") = Some (JStr [])
  ∧ json_get (page_data 1 (sample_page None)) (py "description")
    = Some (JStr [])
  ∧ json_get (page_data 1 (sample_page None)) (py "links_found")
    = Some (JInt 0)
  ∧ json_get (page_data 1 (sample_page None)) (py "images_found")
    = Some (JInt 0).
Proof.
  split; [repeat split; reflexivity|].
  destruct (missing_fields_default 1 (sample_page None))
    as (Hdepth & Htitle & Hdescription & Hlinks & Hmedia).
  split; [apply Hdepth; reflexivity|].
  split; [apply Htitle; reflexivity|].
  split; [apply Hdescription; reflexivity|].
  split; [apply Hlinks; left; reflexivity|].
  apply Hmedia; right; reflexivity.
Defined.

Lemma json_serialisation_witness :
  ((127 < 233)%N
   ∧ Forall (λ c, (127 < c)%N) [233%N]
   ∧ utf8_encode [233%N] = Some [195%N; 169%N])
  ∧ escape_char 233 = [233%N]
  ∧ utf8_encode (py_encode_basestring [233%N])
    = Some [34%N; 195%N; 169%N; 34%N].
Proof.
  split; [repeat split; repeat constructor|].
  destruct json_serialisation as (_ & _ & _ & Hescape & Hbytes).
  split; [apply Hescape; reflexivity|].
  apply (Hbytes [233%N] [195%N; 169%N]); [|reflexivity].
  repeat constructor.
Defined.

(** * Further properties of the script *)

(** ** The derived values *)

Lemma len_nonneg {A} (l : list A) : 0 ≤ len l.
Proof. unfold len. lia. Qed.

Lemma len_app {A} (l k : list A) : len (l ++ k) = len l + len k.
Proof. unfold len. rewrite length_app. lia. Qed.

(** X6. Whenever [cleaned_html] is a non-empty string, so that the guard of
    lines 54 and 78 lets the block through, the markdown block, the text
    block and the JSON field hold one and the same preview, the value of
    line 105, whatever the length of the text. *)
Theorem preview_agrees (f : pystr) (i : Z) (r : CrawlResult) (s : pystr)
    (w : world) :
  cleaned_html r = Some s → s ≠ [] →
  let preview := content_preview_json (cleaned_html r) in
  content_preview s = preview
  ∧ md_page f (i, r) w = fwrite f (md_head i r ++ md_block preview ++ md_rule) w
  ∧ txt_page f (i, r) w
    = fwrite f (txt_head i r ++ txt_block preview ++ txt_rule) w
  ∧ json_get (page_data i r) (py "content_preview") = Some (JStr preview).
Proof.
  intros Hs Hne preview.
  assert (content_preview s = preview) as Hp.
  { unfold preview, content_preview, content_preview_json. rewrite Hs.
    destruct s as [|c s]; [done|]. cbn [truthy_str andb].
    by destruct (500 <? len (c :: s)). }
  assert (page_preview r = Some preview) as Hpp.
  { unfold page_preview. rewrite Hs, <- Hp. by destruct s. }
  rewrite md_page_preview, txt_page_preview, Hpp.
  by rewrite page_data_content_preview.
Qed.

(** X7. The preview of line 105 never has more than 503 characters: it has
    as many as the text when the text has at most 500, and 503 otherwise,
    so that for a text of 501 or 502 characters the preview is longer than
    the text.  Its first 500 characters are those of the text. *)
Theorem preview_length (s : pystr) :
  len (content_preview_json (Some s))
    = (if 500 <? len s then 503 else len s)
  ∧ len (content_preview_json (Some s)) ≤ 503
  ∧ (len s < len (content_preview_json (Some s)) ↔ 500 < len s < 503)
  ∧ take 500 (content_preview_json (Some s)) = take 500 s.
Proof.
  unfold content_preview_json.
  destruct s as [|c s].
  { cbn [truthy_str andb]. rewrite !len_nil.
    change (500 <? 0) with false. cbv iota. split_and!; try done; lia. }
  cbn [truthy_str andb].
  destruct (500 <? len (c :: s)) eqn:E.
  - apply Z.ltb_lt in E.
    assert (length (take 500 (c :: s)) = 500%nat) as Ht
      by (rewrite length_take; unfold len in E; lia).
    assert (len (take 500 (c :: s) ++ py "...") = 503) as HP
      by (rewrite len_app; unfold len; rewrite Ht; reflexivity).
    rewrite HP. split_and!; try lia.
    by rewrite take_app_length'.
  - apply Z.ltb_ge in E. split_and!; try lia. reflexivity.
Qed.

(** X8. The content length is the length of [cleaned_html], 0 standing for
    [None]: the truthiness test of lines 52, 76 and 102 changes nothing.  It
    is never negative, and it is 0 exactly when the JSON preview is
    empty. *)
Theorem content_length_spec (r : CrawlResult) :
  content_length r = len (default [] (cleaned_html r))
  ∧ 0 ≤ content_length r
  ∧ (content_length r = 0 ↔ content_preview_json (cleaned_html r) = []).
Proof.
  unfold content_length, content_preview_json.
  destruct (cleaned_html r) as [[|c s]|]; cbn [default from_option id].
  - by split_and!.
  - cbn [truthy_str andb]. split_and!; [done | apply len_nonneg |].
    assert (0 < len (c :: s)) by (unfold len; cbn [length]; lia).
    split; [lia|]. by destruct (500 <? len (c :: s)).
  - by split_and!.
Qed.

(** X9. [links_found] is the length of the list under the key [internal],
    and 0 when the attribute is missing, is [None], or has no such key;
    lists under other keys are never counted.  [images_found] is the same
    for the key [images] of [media].  Neither is ever negative. *)
Theorem link_and_image_counts (r : CrawlResult) :
  links_found r
    = len (default [] (default None (links r) ≫= (.!! py "internal")))
  ∧ images_found r
    = len (default [] (default None (media r) ≫= (.!! py "images")))
  ∧ 0 ≤ links_found r ∧ 0 ≤ images_found r.
Proof.
  assert (∀ (o : option (option (gmap (list N) (list (gmap (list N) pyval)))))
            (k : list N),
    match o with
    | Some (Some d) => if truthy_attr o then len (dict_get d k []) else 0
    | _ => 0
    end = len (default [] (default None o ≫= (.!! k)))) as Hcount.
  { intros [[d|]|] k; cbn; try done. unfold dict_get.
    case_bool_decide as Hd.
    - by destruct (d !! k).
    - subst d. by rewrite lookup_empty. }
  unfold links_found, images_found. rewrite !Hcount.
  split_and!; try done; apply len_nonneg.
Qed.

(** ** The standard output *)

Lemma stdout_tick w : stdout (tick w) = stdout w.
Proof. reflexivity. Qed.
Lemma stdout_log_call u c w : stdout (log_call u c w) = stdout w.
Proof. reflexivity. Qed.
Lemma stdout_add_dir p w : stdout (add_dir p w) = stdout w.
Proof. reflexivity. Qed.
Lemma stdout_set_file f c w : stdout (set_file f c w) = stdout w.
Proof. reflexivity. Qed.
Lemma stdout_put_line l w : stdout (put_line l w) = stdout w ++ [l].
Proof. reflexivity. Qed.

Create Rewrite HintDb world_stdout.
#[global] Hint Rewrite
  stdout_tick stdout_log_call stdout_add_dir stdout_set_file stdout_put_line
  : world_stdout.

Lemma for_each_print_stdout {A} (l : list A) (g h : A → pystr) (w : world) :
  stdout (for_each l (λ x, print (g x) ;; print (h x)) w).2
  = stdout w ++ flat_map (λ x, [g x; h x]) l.
Proof.
  revert w. induction l as [|x l IH]; intros w.
  - cbn [for_each flat_map]. by rewrite app_nil_r.
  - cbn [for_each flat_map].
    erewrite run_bind;
      [| eapply run_bind; [apply print_eq | apply print_eq] | reflexivity].
    rewrite IH. autorewrite with world_stdout.
    by rewrite <- !app_assoc.
Qed.

Section RunOutput.

Variable clock : nat → datetime.
Variable crawler_arun : pystr → CrawlerRunConfig → list CrawlResult.

Lemma main_stdout (w : world) :
  let results := crawler_arun seed_url config in
  let timestamp := strftime (clock (ticks w)) (py "%Y%m%d_%H%M%S") in
  stdout (exec (main clock crawler_arun) w)
  = stdout w
    ++ [py "Crawled " ++ str_int (len results) ++ py " pages in total";
        py "Results saved to:";
        py "  Markdown: " ++ out_name timestamp (py ".md");
        py "  Text: " ++ out_name timestamp (py ".txt");
        py "  JSON: " ++ out_name timestamp (py ".json")]
    ++ flat_map shown (take 3 results).
Proof.
  intros results timestamp.
  assert (∃ wl,
    main clock crawler_arun w
      = for_each (take 3 results)
          (λ x : CrawlResult,
             print (py "URL: " ++ url x) ;;
             print (py "Depth: "
                    ++ py_format (dict_get (metadata x) (py "depth")
                                           (PInt 0)))) wl
    ∧ stdout wl
      = stdout w
        ++ [py "Crawled " ++ str_int (len results) ++ py " pages in total";
            py "Results saved to:";
            py "  Markdown: " ++ out_name timestamp (py ".md");
            py "  Text: " ++ out_name timestamp (py ".txt");
            py "  JSON: " ++ out_name timestamp (py ".json")])
    as (wl & Hmain & Hwl).
  { eexists. split.
    - unfold main.
      eapply run_bind; [apply arun_eq|].
      eapply run_bind; [apply print_eq|].
      eapply run_bind; [apply makedirs_eq|].
      eapply run_bind; [apply now_eq|]. cbv zeta.
      rewrite !path_join_results_dir.
      eapply run_bind; [apply write_md_spec|].
      eapply run_bind; [apply write_txt_spec|].
      eapply run_bind; [apply write_json_spec|].
      do 4 (eapply run_bind; [apply print_eq|]).
      reflexivity.
    - autorewrite with world_stdout world_fields.
      by rewrite <- !app_assoc. }
  unfold exec. rewrite Hmain.
  rewrite (for_each_print_stdout (take 3 results)
             (λ x, py "URL: " ++ url x)
             (λ x, py "Depth: "
                   ++ py_format (dict_get (metadata x) (py "depth") (PInt 0)))).
  rewrite Hwl. by rewrite <- app_assoc.
Qed.

(** A run leaves every file but its three alone. *)
Lemma main_frame (w : world) (p : pystr) :
  let timestamp := strftime (clock (ticks w)) (py "%Y%m%d_%H%M%S") in
  p ≠ out_name timestamp (py ".md") →
  p ≠ out_name timestamp (py ".txt") →
  p ≠ out_name timestamp (py ".json") →
  files (exec (main clock crawler_arun) w) !! p = files w !! p.
Proof.
  intros timestamp Hmd Htxt Hjson.
  destruct (main_spec clock crawler_arun w) as (_ & _ & _ & Hfiles).
  fold timestamp in Hfiles. rewrite Hfiles.
  by rewrite !lookup_insert_ne.
Qed.

End RunOutput.

Lemma length_flat_map_shown (l : list CrawlResult) :
  length (flat_map shown l) = (2 * length l)%nat.
Proof.
  induction l as [|r l IH]; [done|].
  cbn [flat_map shown app length]. rewrite IH. lia.
Qed.

(** X1. A run prints, in this order: the number of pages the crawl
    returned, the line that announces the files, the paths of the markdown,
    text and JSON files, and then the URL and the depth (0 without a [depth]
    key) of the first three pages at most, two lines a page. *)
Theorem printed_summary (clock : nat → datetime)
    (crawler_arun : pystr → CrawlerRunConfig → list CrawlResult)
    (w : world) :
  let results := crawler_arun seed_url config in
  let timestamp := strftime (clock (ticks w)) (py "%Y%m%d_%H%M%S") in
  let w' := exec (main clock crawler_arun) w in
  stdout w'
  = stdout w
    ++ [py "Crawled " ++ str_int (len results) ++ py " pages in total";
        py "Results saved to:";
        py "  Markdown: " ++ py "crawl_results/crawl_results_" ++ timestamp
                          ++ py ".md";
        py "  Text: " ++ py "crawl_results/crawl_results_" ++ timestamp
                      ++ py ".txt";
        py "  JSON: " ++ py "crawl_results/crawl_results_" ++ timestamp
                      ++ py ".json"]
    ++ flat_map (λ result,
                   [py "URL: " ++ url result;
                    py "Depth: "
                    ++ py_format (dict_get (metadata result) (py "depth")
                                           (PInt 0))])
                (take 3 results)
  ∧ length (stdout w')
    = (length (stdout w) + 5 + 2 * (length results `min` 3))%nat.
Proof.
  intros results timestamp w'.
  pose proof (main_stdout clock crawler_arun w) as H.
  fold results timestamp w' in H. split; [exact H|].
  rewrite H, !length_app, length_flat_map_shown, length_take. cbn [length].
  lia.
Qed.

(** X2. A run creates or replaces its three files and nothing else: every
    other path holds after the run what it held before. *)
Theorem other_files_untouched (clock : nat → datetime)
    (crawler_arun : pystr → CrawlerRunConfig → list CrawlResult)
    (w : world) (p : pystr) :
  let timestamp := strftime (clock (ticks w)) (py "%Y%m%d_%H%M%S") in
  p ≠ py "crawl_results/crawl_results_" ++ timestamp ++ py ".md" →
  p ≠ py "crawl_results/crawl_results_" ++ timestamp ++ py ".txt" →
  p ≠ py "crawl_results/crawl_results_" ++ timestamp ++ py ".json" →
  files (exec (main clock crawler_arun) w) !! p = files w !! p.
Proof. apply main_frame. Qed.

(** X10. When the crawl returns no page, the run still writes its three
    files: the markdown and the text file are their header with a total of
    0 and no section, the JSON file has 0 for [total_pages_crawled] and an
    empty array under [results], and nothing is printed after the five
    summary lines. *)
Theorem empty_crawl_run (clock : nat → datetime)
    (crawler_arun : pystr → CrawlerRunConfig → list CrawlResult)
    (w : world) :
  let timestamp := strftime (clock (ticks w)) (py "%Y%m%d_%H%M%S") in
  let date (n : nat) := strftime (clock (n + ticks w)%nat) date_format in
  let w' := exec (main clock crawler_arun) w in
  crawler_arun seed_url config = [] →
  files w' !! (py "crawl_results/crawl_results_" ++ timestamp ++ py ".md")
    = Some (md_header (date 1%nat) 0)
  ∧ files w' !! (py "crawl_results/crawl_results_" ++ timestamp ++ py ".txt")
    = Some (txt_header (date 2%nat) 0)
  ∧ files w' !! (py "crawl_results/crawl_results_" ++ timestamp ++ py ".json")
    = Some (json_dumps (JDict [(py "crawl_info", crawl_info (date 3%nat) 0);
                               (py "results", JList [])]))
  ∧ iterencode 2 1 (JList []) = py "[]"
  ∧ length (stdout w') = (length (stdout w) + 5)%nat.
Proof.
  intros timestamp date w' Hempty.
  destruct (main_files clock crawler_arun w) as (Hmd & Htxt & Hjson).
  pose proof (main_stdout clock crawler_arun w) as Hout.
  fold timestamp w' in Hmd, Htxt, Hjson, Hout.
  rewrite json_data_eq in Hjson. rewrite Hempty in Hmd, Htxt, Hjson, Hout.
  unfold md_document, txt_document in Hmd, Htxt.
  cbn [numbered imap map concat] in Hmd, Htxt. rewrite app_nil_r in Hmd, Htxt.
  split; [exact Hmd|]. split; [exact Htxt|]. split; [exact Hjson|].
  split; [reflexivity|]. rewrite Hout, !length_app. cbn [length take flat_map].
  lia.
Qed.

(** ** Stamps and successive runs *)

Lemma parse_zero_pad_below (width bound : nat) :
  forallb (λ k, (parse_N (zero_pad width (N.of_nat k)) =? N.of_nat k)%N)
          (seq 0 bound) = true →
  ∀ n : N, (n < N.of_nat bound)%N → parse_N (zero_pad width n) = n.
Proof.
  intros Hall n Hn. rewrite forallb_forall in Hall.
  specialize (Hall (N.to_nat n)). rewrite N2Nat.id in Hall.
  apply N.eqb_eq, Hall, in_seq. lia.
Qed.

Lemma parse_zero_pad_2 (n : N) : (n < 100)%N → parse_N (zero_pad 2 n) = n.
Proof. apply (parse_zero_pad_below 2 100). vm_compute. reflexivity. Qed.

Lemma parse_zero_pad_4 (n : N) : (n < 10000)%N → parse_N (zero_pad 4 n) = n.
Proof. apply (parse_zero_pad_below 4 10000). vm_compute. reflexivity. Qed.

Lemma zero_pad_2_inj (a b : N) :
  (a < 100)%N → (b < 100)%N → zero_pad 2 a = zero_pad 2 b → a = b.
Proof.
  intros Ha Hb H. apply (f_equal parse_N) in H.
  by rewrite !parse_zero_pad_2 in H.
Qed.

Lemma zero_pad_4_inj (a b : N) :
  (a < 10000)%N → (b < 10000)%N → zero_pad 4 a = zero_pad 4 b → a = b.
Proof.
  intros Ha Hb H. apply (f_equal parse_N) in H.
  by rewrite !parse_zero_pad_4 in H.
Qed.

Lemma zero_pad_2_length (n : N) : (n < 100)%N → length (zero_pad 2 n) = 2%nat.
Proof. intros Hn. by apply digits_length, zero_pad_2. Qed.

Lemma zero_pad_4_length (n : N) :
  (n < 10000)%N → length (zero_pad 4 n) = 4%nat.
Proof. intros Hn. by apply digits_length, zero_pad_4. Qed.

Lemma strftime_stamp_length (t : datetime) :
  valid_datetime t → length (strftime t (py "%Y%m%d_%H%M%S")) = 15%nat.
Proof.
  intros (Hy & Hm & Hd & HH & HM & HS). rewrite strftime_stamp.
  rewrite !length_app. cbn [length]. rewrite !length_app.
  rewrite zero_pad_4_length, !zero_pad_2_length by lia. reflexivity.
Qed.

Lemma strftime_stamp_inj (t1 t2 : datetime) :
  valid_datetime t1 → valid_datetime t2 →
  strftime t1 (py "%Y%m%d_%H%M%S") = strftime t2 (py "%Y%m%d_%H%M%S") →
  t1 = t2.
Proof.
  intros (Hy1 & Hm1 & Hd1 & HH1 & HM1 & HS1)
         (Hy2 & Hm2 & Hd2 & HH2 & HM2 & HS2) H.
  rewrite !strftime_stamp in H.
  apply app_inj_1 in H as [Hdate Htime];
    [| rewrite !length_app, !zero_pad_4_length, !zero_pad_2_length by lia;
       reflexivity].
  injection Htime as Htime.
  apply app_inj_1 in Hdate as [Hyear Hdate];
    [| by rewrite !zero_pad_4_length by lia].
  apply app_inj_1 in Hdate as [Hmonth Hday];
    [| by rewrite !zero_pad_2_length by lia].
  apply app_inj_1 in Htime as [Hhour Htime];
    [| by rewrite !zero_pad_2_length by lia].
  apply app_inj_1 in Htime as [Hminute Hsecond];
    [| by rewrite !zero_pad_2_length by lia].
  apply zero_pad_4_inj in Hyear; [|lia..].
  apply zero_pad_2_inj in Hmonth, Hday, Hhour, Hminute, Hsecond; [|lia..].
  destruct t1, t2. cbn in *. by subst.
Qed.

(** X3. The stamp tells the reading of the clock to the second: two valid
    readings with the same stamp are the same reading, so two runs get the
    same file names only when they read the clock in the same second. *)
Theorem stamp_determines_reading (t1 t2 : datetime) :
  valid_datetime t1 → valid_datetime t2 →
  strftime t1 (py "%Y%m%d_%H%M%S") = strftime t2 (py "%Y%m%d_%H%M%S") →
  t1 = t2.
Proof. apply strftime_stamp_inj. Qed.

Lemma out_name_stamp_inj (s1 s2 e1 e2 : pystr) :
  length s1 = length s2 → out_name s1 e1 = out_name s2 e2 → s1 = s2.
Proof.
  unfold out_name. intros Hlen H.
  apply (inj (app (py "crawl_results/crawl_results_"))) in H.
  by apply app_inj_1 in H as [? _].
Qed.

(** X4. Two runs in a row that read the clock in different seconds do not
    touch each other's files: after the second run the three files of the
    first hold what the first run wrote, next to the three files of the
    second. *)
Theorem later_run_keeps_earlier_files (clock : nat → datetime)
    (crawl_1 crawl_2 : pystr → CrawlerRunConfig → list CrawlResult)
    (w : world) :
  let t1 := clock (ticks w) in
  let t2 := clock (4 + ticks w)%nat in
  let name (t : datetime) (ext : pystr) :=
    py "crawl_results/crawl_results_" ++ strftime t (py "%Y%m%d_%H%M%S")
    ++ ext in
  let w1 := exec (main clock crawl_1) w in
  let w2 := exec (main clock crawl_2) w1 in
  valid_datetime t1 → valid_datetime t2 → t1 ≠ t2 →
  (files w2 !! name t1 (py ".md")
     = Some (md_document (clock (1 + ticks w)%nat) (crawl_1 seed_url config))
   ∧ files w2 !! name t1 (py ".txt")
     = Some (txt_document (clock (2 + ticks w)%nat) (crawl_1 seed_url config))
   ∧ files w2 !! name t1 (py ".json")
     = Some (json_dumps
               (json_data (strftime (clock (3 + ticks w)%nat) date_format)
                          (crawl_1 seed_url config))))
  ∧ (files w2 !! name t2 (py ".md")
       = Some (md_document (clock (5 + ticks w)%nat) (crawl_2 seed_url config))
     ∧ files w2 !! name t2 (py ".txt")
       = Some (txt_document (clock (6 + ticks w)%nat)
                            (crawl_2 seed_url config))
     ∧ files w2 !! name t2 (py ".json")
       = Some (json_dumps
                 (json_data (strftime (clock (7 + ticks w)%nat) date_format)
                            (crawl_2 seed_url config)))).
Proof.
  intros t1 t2 name w1 w2 Hv1 Hv2 Hne.
  destruct (main_spec clock crawl_1 w) as (Hticks & _).
  fold w1 in Hticks.
  destruct (main_files clock crawl_1 w) as (Hmd1 & Htxt1 & Hjson1).
  destruct (main_files clock crawl_2 w1) as (Hmd2 & Htxt2 & Hjson2).
  fold w1 in Hmd1, Htxt1, Hjson1. fold w2 in Hmd2, Htxt2, Hjson2.
  rewrite Hticks in Hmd2, Htxt2, Hjson2. fold t1 in Hmd1, Htxt1, Hjson1.
  fold t2 in Hmd2, Htxt2, Hjson2.
  assert (∀ e1 e2,
    out_name (strftime t1 (py "%Y%m%d_%H%M%S")) e1
    ≠ out_name (strftime t2 (py "%Y%m%d_%H%M%S")) e2) as Hnames.
  { intros e1 e2 Heq. apply Hne, strftime_stamp_inj; [done..|].
    apply out_name_stamp_inj in Heq; [done|].
    by rewrite !strftime_stamp_length. }
  assert (∀ e, files w2 !! out_name (strftime t1 (py "%Y%m%d_%H%M%S")) e
               = files w1 !! out_name (strftime t1 (py "%Y%m%d_%H%M%S")) e)
    as Hkept.
  { intros e. apply main_frame; rewrite Hticks; fold t2; apply Hnames. }
  split.
  - split; [|split].
    + exact (eq_trans (Hkept _) Hmd1).
    + exact (eq_trans (Hkept _) Htxt1).
    + exact (eq_trans (Hkept _) Hjson1).
  - split; [exact Hmd2|]. split; [exact Htxt2 | exact Hjson2].
Qed.

(** X5. Two runs in a row whose stamps are the same use the same three
    paths, and the second run replaces what the first wrote there: the
    files end up holding the documents of the second run only. *)
Theorem same_second_run_overwrites (clock : nat → datetime)
    (crawl_1 crawl_2 : pystr → CrawlerRunConfig → list CrawlResult)
    (w : world) :
  let timestamp := strftime (clock (ticks w)) (py "%Y%m%d_%H%M%S") in
  let name (ext : pystr) :=
    py "crawl_results/crawl_results_" ++ timestamp ++ ext in
  let w2 := exec (main clock crawl_2) (exec (main clock crawl_1) w) in
  strftime (clock (4 + ticks w)%nat) (py "%Y%m%d_%H%M%S") = timestamp →
  files w2 !! name (py ".md")
    = Some (md_document (clock (5 + ticks w)%nat) (crawl_2 seed_url config))
  ∧ files w2 !! name (py ".txt")
    = Some (txt_document (clock (6 + ticks w)%nat) (crawl_2 seed_url config))
  ∧ files w2 !! name (py ".json")
    = Some (json_dumps
              (json_data (strftime (clock (7 + ticks w)%nat) date_format)
                         (crawl_2 seed_url config))).
Proof.
  intros timestamp name w2 Hsame.
  destruct (main_spec clock crawl_1 w) as (Hticks & _).
  destruct (main_files clock crawl_2 (exec (main clock crawl_1) w))
    as (Hmd2 & Htxt2 & Hjson2).
  fold w2 in Hmd2, Htxt2, Hjson2.
  rewrite Hticks, Hsame in Hmd2, Htxt2, Hjson2.
  split; [exact Hmd2|]. split; [exact Htxt2 | exact Hjson2].
Qed.

(** ** The further properties at sample inputs *)

Lemma other_files_untouched_witness :
  files (exec (main sample_clock sample_crawl) sample_world) !! py "notes.txt"
  = None.
Proof.
  rewrite (other_files_untouched sample_clock sample_crawl sample_world
                                 (py "notes.txt"));
    [reflexivity | discriminate | discriminate | discriminate].
Defined.

Lemma sample_clock_valid (k : nat) :
  (k < 60)%nat → valid_datetime (sample_clock k).
Proof. intros Hk. unfold valid_datetime. cbn. lia. Defined.

Lemma stamp_determines_reading_witness :
  (valid_datetime (sample_clock 0) ∧ valid_datetime (still_clock 3)
   ∧ strftime (sample_clock 0) (py "%Y%m%d_%H%M%S")
     = strftime (still_clock 3) (py "%Y%m%d_%H%M%S"))
  ∧ sample_clock 0 = still_clock 3.
Proof.
  assert (valid_datetime (sample_clock 0)) as H0
    by (apply sample_clock_valid; lia).
  split; [split_and!; [exact H0 | exact H0 | reflexivity]|].
  apply (stamp_determines_reading (sample_clock 0) (still_clock 3) H0 H0).
  reflexivity.
Defined.

Lemma later_run_keeps_earlier_files_witness :
  (valid_datetime (sample_clock 0) ∧ valid_datetime (sample_clock 4)
   ∧ sample_clock 0 ≠ sample_clock 4)
  ∧ files (exec (main sample_clock empty_crawl)
                (exec (main sample_clock sample_crawl) sample_world))
      !! (py "crawl_results/crawl_results_"
          ++ strftime (sample_clock 0) (py "%Y%m%d_%H%M%S") ++ py ".md")
    = Some (md_document (sample_clock 1) (sample_crawl seed_url config)).
Proof.
  assert (valid_datetime (sample_clock 0)) as H0
    by (apply sample_clock_valid; lia).
  assert (valid_datetime (sample_clock 4)) as H4
    by (apply sample_clock_valid; lia).
  assert (sample_clock 0 ≠ sample_clock 4) as Hne by discriminate.
  split; [by split_and!|].
  apply (later_run_keeps_earlier_files sample_clock sample_crawl empty_crawl
                                       sample_world H0 H4 Hne).
Defined.

Lemma same_second_run_overwrites_witness :
  strftime (still_clock 4) (py "%Y%m%d_%H%M%S")
    = strftime (still_clock 0) (py "%Y%m%d_%H%M%S")
  ∧ files (exec (main still_clock empty_crawl)
                (exec (main still_clock sample_crawl) sample_world))
      !! (py "crawl_results/crawl_results_"
          ++ strftime (still_clock 0) (py "%Y%m%d_%H%M%S") ++ py ".md")
    = Some (md_document (still_clock 5) (empty_crawl seed_url config)).
Proof.
  split; [reflexivity|].
  apply (same_second_run_overwrites still_clock sample_crawl empty_crawl
                                    sample_world).
  reflexivity.
Defined.

Lemma preview_agrees_witness :
  (cleaned_html linked_page = Some (replicate 501 97%N)
   ∧ replicate 501 97%N ≠ [])
  ∧ content_preview (replicate 501 97%N)
    = content_preview_json (cleaned_html linked_page).
Proof.
  split; [split; [reflexivity | discriminate]|].
  apply (preview_agrees (py "out.md") 1 linked_page (replicate 501 97%N)
                        sample_world); [reflexivity | discriminate].
Defined.

Lemma preview_length_witness :
  500 < len long_text < 503
  ∧ len long_text < len (content_preview_json (Some long_text)).
Proof.
  assert (500 < len long_text < 503) as H
    by (split; vm_compute; reflexivity).
  split; [exact H|].
  apply (preview_length long_text). exact H.
Defined.

Lemma content_length_spec_witness :
  content_length (sample_page (Some [])) = 0
  ∧ content_preview_json (cleaned_html (sample_page (Some []))) = [].
Proof.
  split; [reflexivity|].
  apply (content_length_spec (sample_page (Some []))). reflexivity.
Defined.

Lemma empty_crawl_run_witness :
  empty_crawl seed_url config = []
  ∧ files (exec (main sample_clock empty_crawl) sample_world)
      !! (py "crawl_results/crawl_results_"
          ++ strftime (sample_clock 0) (py "%Y%m%d_%H%M%S") ++ py ".md")
    = Some (md_header (strftime (sample_clock 1) date_format) 0).
Proof.
  split; [reflexivity|].
  apply (empty_crawl_run sample_clock empty_crawl sample_world).
  reflexivity.
Defined.
